(** * KM271 / Ecomatic 2000 link driver (src/src/km271.cpp, src/include/km271.h)

    A shallow embedding of the 3964-style frame codec, the session manager,
    the payload decoder, the status store and the command builder, followed
    by the properties established for them.

    Conventions.
    - [uint8_t] and [int] values are integers in [Z]; a byte is a [Z] in
      [0, 255].  Where the source truncates to 8 bits the wrap-around is
      written out ([mod 256]).
    - A C array is a [list Z]; [rd a i] is the read [a[i]], and an indexed
      store [a[i] = v] is [<[i:=v]> a].
    - A [float] is a rational in [Q].  Every value the driver computes is
      an integer or a half-integer of magnitude below 256, which binary32
      represents exactly, so no rounding takes place. *)

From Stdlib Require Import ZArith QArith List String Bool Lia.
From stdpp Require Import base list strings.
Import ListNotations.

Close Scope Q_scope.
Local Open Scope Z_scope.

(** ** Protocol elements ([km271.h]) *)

Definition KM_STX : Z := 0x02.
Definition KM_DLE : Z := 0x10.
Definition KM_ETX : Z := 0x03.
Definition KM_NAK : Z := 0x15.

Definition KM_RX_BUF_LEN : Z := 20.

(** States of the byte-level receiver. *)
Inductive e_rxState :=
| KM_RX_RESYNC
| KM_RX_IDLE
| KM_RX_ON
| KM_RX_DLE
| KM_RX_BCC.

(** States of the block-level handler [handleRxBlock]. *)
Inductive e_rxBlockState :=
| KM_TSK_START
| KM_TSK_LG_CMD
| KM_TSK_LOGGING.

(** [KmRx_s]: the receive block, a length and a 20-byte array. *)
Record KmRx_s := { len : Z; buf : list Z }.

(** The array read [a[i]]. *)
Definition rd (a : list Z) (i : nat) : Z := nth i a 0.

(** Known single commands. *)
Definition KmCSTX : list Z := [KM_STX].
Definition KmCDLE : list Z := [KM_DLE].
Definition KmCNAK : list Z := [KM_NAK].
Definition KmCLogMode : list Z := [0xEE; 0x00; 0x00].

(** ** Outbound encoder: [sendTxBlock] *)

Definition is_protocol_byte (b : Z) : bool :=
  (b =? KM_STX) || (b =? KM_DLE) || (b =? KM_NAK).

(** Body of the [for] loop of [sendTxBlock] at index [ii].  The loop state
    is the part of [buf] filled so far (so [txLen] is its length) and the
    running [bcc]. *)
Definition txLoopBody (data : list Z) (st : list Z * Z) (ii : nat) : list Z * Z :=
  let '(txbuf, bcc) := st in
  let d := rd data ii in
  let bcc := if (0 <? ii)%nat then Z.lxor bcc d else d in
  let txbuf := txbuf ++ [d] in
  if d =? KM_DLE then (txbuf ++ [d], Z.lxor bcc d) else (txbuf, bcc).

(** [sendTxBlock data len] returns the bytes handed to [Serial2.write]
    (none when [len] is 0).  The local array [buf[256]] is large enough for
    every block of up to 126 payload bytes; longer blocks are outside the
    model. *)
Definition sendTxBlock (data : list Z) (len : Z) : list Z :=
  if len =? 0 then []
  else if (len =? 1) && is_protocol_byte (rd data 0) then [rd data 0]
  else
    let '(txbuf, bcc) := fold_left (txLoopBody data) (seq 0 (Z.to_nat len)) ([], 0) in
    let bcc := Z.lxor bcc KM_DLE in
    let txbuf := txbuf ++ [KM_DLE] in
    let bcc := Z.lxor bcc KM_ETX in
    let txbuf := txbuf ++ [KM_ETX] in
    txbuf ++ [bcc].

(** ** Inbound frame state machine: the [switch] of [cyclicKM271] *)

(** The three receiver variables [kmRxStatus], [kmRxBcc], [kmRxBuf]. *)
Record rx_state := {
  kmRxStatus : e_rxState;
  kmRxBcc : Z;
  kmRxBuf : KmRx_s
}.

(** The calls the receiver makes on one byte, in program order.  Neither
    callee reads or writes a receiver variable other than through the
    [data] pointer it is given, so its position relative to the assignment
    of [kmRxStatus] in the [KM_RX_BCC] case is immaterial. *)
Inductive call :=
| Call_handleRxBlock (data : list Z) (len : Z) (bcc : Z)
| Call_sendTxBlock (data : list Z) (len : Z).

Definition mkRx (st : e_rxState) (bcc : Z) (b : KmRx_s) : rx_state :=
  {| kmRxStatus := st; kmRxBcc := bcc; kmRxBuf := b |}.

(** One received byte. *)
Definition rxByteStep (rxByte : Z) (s : rx_state) : rx_state * list call :=
  let bcc := Z.lxor (kmRxBcc s) rxByte in
  let b := kmRxBuf s in
  match kmRxStatus s with
  | KM_RX_RESYNC =>
      if rxByte =? KM_STX then
        let b' := {| len := 1; buf := <[0%nat := KM_STX]> (buf b) |} in
        (mkRx KM_RX_IDLE bcc b', [Call_handleRxBlock (buf b') (len b') rxByte])
      else (mkRx KM_RX_RESYNC bcc b, [])
  | KM_RX_IDLE =>
      let b' := {| len := 1; buf := <[0%nat := rxByte]> (buf b) |} in
      if is_protocol_byte rxByte then
        (mkRx KM_RX_IDLE rxByte b', [Call_handleRxBlock (buf b') (len b') rxByte])
      else (mkRx KM_RX_ON rxByte b', [])
  | KM_RX_ON =>
      if rxByte =? KM_DLE then (mkRx KM_RX_DLE bcc b, [])
      else if len b >=? KM_RX_BUF_LEN then (mkRx KM_RX_RESYNC bcc b, [])
      else
        let b' := {| len := (len b + 1) mod 256;
                     buf := <[Z.to_nat (len b) := rxByte]> (buf b) |} in
        (mkRx KM_RX_ON bcc b', [])
  | KM_RX_DLE =>
      if rxByte =? KM_DLE then
        if len b >=? KM_RX_BUF_LEN then (mkRx KM_RX_RESYNC bcc b, [])
        else
          let b' := {| len := (len b + 1) mod 256;
                       buf := <[Z.to_nat (len b) := rxByte]> (buf b) |} in
          (mkRx KM_RX_ON bcc b', [])
      else if rxByte =? KM_ETX then (mkRx KM_RX_BCC bcc b, [])
      else (mkRx KM_RX_RESYNC bcc b, [])
  | KM_RX_BCC =>
      (mkRx KM_RX_IDLE bcc b,
       if bcc =? 0 then [Call_handleRxBlock (buf b) (len b) rxByte]
       else [Call_sendTxBlock KmCNAK 1])
  end.

(** A sequence of received bytes, with the calls made along the way. *)
Fixpoint rxRun (bytes : list Z) (s : rx_state) : rx_state * list call :=
  match bytes with
  | [] => (s, [])
  | b :: rest =>
      let '(s1, c1) := rxByteStep b s in
      let '(s2, c2) := rxRun rest s1 in
      (s2, c1 ++ c2)
  end.

(** Receiver variables at program start: [kmRxStatus = KM_RX_RESYNC], the
    rest zero-initialised. *)
Definition rx_init : rx_state :=
  mkRx KM_RX_RESYNC 0 {| len := 0; buf := replicate 20 0 |}.

(** The same variables with the receiver idle. *)
Definition rx_idle : rx_state :=
  mkRx KM_RX_IDLE 0 {| len := 0; buf := replicate 20 0 |}.

(** ** Status store ([s_km271_status]) *)

(** The [uint8_t] members of [s_km271_status], in declaration order. *)
Inductive u8_field :=
| HeatingCircuitOperatingStates_1
| HeatingCircuitOperatingStates_2
| SwitchOnOptimizationTime
| SwitchOffOptimizationTime
| PumpPower
| MixingValue
| HotWaterOperatingStates_1
| HotWaterOperatingStates_2
| HotWaterOptimizationTime
| HotWaterPumpStates
| BoilerIntegral_1
| BoilerIntegral_2
| BoilerErrorStates
| BoilerOperatingStates
| BurnerStates
| BurnerOperatingDuration_2
| BurnerOperatingDuration_1
| BurnerOperatingDuration_0
| ControllerVersionMain
| ControllerVersionSub
| Modul
| ERR_Alarmstatus.

(** The [float] members of [s_km271_status], in declaration order. *)
Inductive f32_field :=
| HeatingForwardTargetTemp
| HeatingForwardActualTemp
| RoomTargetTemp
| RoomActualTemp
| HeatingCurvePlus10
| HeatingCurve0
| HeatingCurveMinus10
| HotWaterTargetTemp
| HotWaterActualTemp
| BoilerForwardTargetTemp
| BoilerForwardActualTemp
| BurnerSwitchOnTemp
| BurnerSwitchOffTemp
| ExhaustTemp
| OutsideTemp
| OutsideDampedTemp.

#[global] Instance u8_field_eq_dec : EqDecision u8_field.
Proof. solve_decision. Defined.

#[global] Instance f32_field_eq_dec : EqDecision f32_field.
Proof. solve_decision. Defined.

Definition all_u8_fields : list u8_field :=
  [ HeatingCircuitOperatingStates_1; HeatingCircuitOperatingStates_2;
    SwitchOnOptimizationTime; SwitchOffOptimizationTime; PumpPower;
    MixingValue; HotWaterOperatingStates_1; HotWaterOperatingStates_2;
    HotWaterOptimizationTime; HotWaterPumpStates; BoilerIntegral_1;
    BoilerIntegral_2; BoilerErrorStates; BoilerOperatingStates; BurnerStates;
    BurnerOperatingDuration_2; BurnerOperatingDuration_1;
    BurnerOperatingDuration_0; ControllerVersionMain; ControllerVersionSub;
    Modul; ERR_Alarmstatus ].

Definition all_f32_fields : list f32_field :=
  [ HeatingForwardTargetTemp; HeatingForwardActualTemp; RoomTargetTemp;
    RoomActualTemp; HeatingCurvePlus10; HeatingCurve0; HeatingCurveMinus10;
    HotWaterTargetTemp; HotWaterActualTemp; BoilerForwardTargetTemp;
    BoilerForwardActualTemp; BurnerSwitchOnTemp; BurnerSwitchOffTemp;
    ExhaustTemp; OutsideTemp; OutsideDampedTemp ].

(** The structure as its member store: one cell per member, addressed by
    the member's name.  [s.(u8) m] is the member access [s.m]. *)
Record s_km271_status := {
  u8 : u8_field -> Z;
  f32 : f32_field -> Q
}.

(** The assignments [s.m = v]. *)
Definition set_u8 (m : u8_field) (v : Z) (s : s_km271_status) : s_km271_status :=
  {| u8 := fun m' => if decide (m' = m) then v else u8 s m'; f32 := f32 s |}.

Definition set_f32 (m : f32_field) (v : Q) (s : s_km271_status) : s_km271_status :=
  {| u8 := u8 s; f32 := fun m' => if decide (m' = m) then v else f32 s m' |}.

(** A zero-initialised structure. *)
Definition status_zero : s_km271_status :=
  {| u8 := fun _ => 0; f32 := fun _ => 0%Q |}.

(** [memcmp(&a, &b, sizeof(s_km271_status)) != 0].  The comparison is
    bytewise; on the floats the driver produces (no NaN, no negative zero)
    equal bytes and equal values coincide. *)
Definition status_differs (a b : s_km271_status) : bool :=
  negb (forallb (fun m => u8 a m =? u8 b m) all_u8_fields
        && forallb (fun m => Qeq_bool (f32 a m) (f32 b m)) all_f32_fields).

(** ** Numeric decoders *)

(** [(float)data] for an integer. *)
Definition float_of_int (n : Z) : Q := inject_Z n.

(** Conversion of a float argument to a [uint8_t] parameter: truncation
    toward zero; for the negative values, which C++ leaves undefined, the
    model wraps modulo 256. *)
Definition uint8_of_float (x : Q) : Z := (Z.quot (Qnum x) (Z.pos (Qden x))) mod 256.

Definition decode05cTemp (data : Z) : Q := (float_of_int data / 2)%Q.

Definition decodeNegTemp (data : Z) : Q :=
  if data >? 128 then (float_of_int (256 - data) * -1)%Q
  else float_of_int data.

(** Arduino's [bitRead(value, bit)]: [((value) >> (bit)) & 0x01]. *)
Definition bitRead (value : Z) (bit : Z) : Z := Z.land (Z.shiftr value bit) 0x01.

(** ** Publications *)

(** The payload handed to [mqttPublish], kept as the expression the source
    builds rather than as rendered text. *)
Inductive mqtt_payload :=
| PInt (n : Z)                   (* String(n), n an integer *)
| PFloat (x : Q)                 (* String(x), x a float *)
| PHex (n : Z)                   (* String(n, HEX) *)
| PText (s : string)             (* a literal or a table entry *)
| PCat (a b : mqtt_payload).     (* a + b *)

(** One call [mqttPublish(addTopic(t), p, r)]; [topic] is [t], the argument
    of [addTopic], whose prefixing lives outside these files. *)
Record mqtt_msg := {
  topic : string;
  payload : mqtt_payload;
  retain : bool
}.

Definition pub (t : string) (p : mqtt_payload) : mqtt_msg :=
  {| topic := t; payload := p; retain := false |}.

(** Label tables for configuration messages. *)
Definition cfgOperatingMode : list string := ["night"; "day"; "auto"]%string.
Definition cfgDisplay : list string := ["auto"; "boiler"; "DHW"; "outdoor"]%string.
Definition cfgLanguage : list string := ["DE"; "FR"; "IT"; "NL"; "EN"; "PL"]%string.
Definition cfgReductionMode : list string := ["off"; "fixed"; "room"; "outdoors"]%string.
Definition cfgSummerModeThreshold : list string :=
  ["summer"; "10 °C"; "11 °C"; "12 °C"; "13 °C"; "14 °C"; "15 °C"; "16 °C";
   "17 °C"; "18 °C"; "19 °C"; "20 °C"; "21 °C"; "22 °C"; "23 °C"; "24 °C";
   "25 °C"; "26 °C"; "27 °C"; "28 °C"; "29 °C"; "30 °C"; "winter"]%string.
Definition cfgSwitchOnTemperature : list string :=
  ["off"; "1"; "2"; "3"; "4"; "5"; "6"; "7"; "8"; "9"; "10"]%string.
Definition cfgHeatingSystem : list string := ["off"; "radiator"; "-"; "underfloor"]%string.
Definition cfgOnOff : list string := ["off"; "on"]%string.
Definition cfgBuildingType : list string := ["light"; "medium"; "heavy"]%string.
Definition cfgCirculationInterval : list string :=
  ["off"; "1"; "2"; "3"; "4"; "5"; "6"; "on"]%string.
Definition cfgBurnerType : list string := ["1-stage"; "2-stage"; "modulated"]%string.
Definition cfgExhaustGasThreshold : list string :=
  ["off"; "50"; "55"; "60"; "65"; "70"; "75"; "80"; "85"; "90"; "95"; "100";
   "105"; "110"; "115"; "120"; "125"; "130"; "135"; "140"; "145"; "150";
   "155"; "160"; "165"; "170"; "175"; "180"; "185"; "190"; "195"; "200";
   "205"; "210"; "215"; "220"; "225"; "230"; "235"; "240"; "245"; "250"]%string.
Definition cfgHk1Program : list string :=
  ["custom"; "family"; "early"; "late"; "AM"; "PM"; "noon"; "single"; "senior"]%string.

(** The table read [t[i]].  The source does not check [i]; an index
    outside the table is undefined there and yields the empty string here. *)
Definition tbl (t : list string) (i : Z) : string :=
  if (0 <=? i) && (i <? Z.of_nat (length t)) then nth (Z.to_nat i) t EmptyString
  else EmptyString.

Definition degC : mqtt_payload := PText " °C".

(** The debug dump of the first twelve bytes:
    [String(data[0], HEX) + "_" + ... + String(data[11], HEX)]. *)
Definition hexDump (data : list Z) : mqtt_payload :=
  fold_left (fun acc i => PCat (PCat acc (PText "_")) (PHex (rd data i)))
            (seq 1 11) (PHex (rd data 0)).

(** ** Global state *)

(** [SemaphoreHandle_t]: a null pointer or a created semaphore. *)
Inductive SemaphoreHandle_t :=
| NULL
| Handle (id : nat).

(** The file's global variables, with the two output channels the driver
    writes to: every byte handed to [Serial2.write] and every
    [mqttPublish] call, oldest first.  Taking and giving a created
    [accessMutex] has no effect on a single thread of control and is not
    represented; [parseInfo] running while the handle is still null is
    outside the model. *)
Record world := {
  accessMutex : SemaphoreHandle_t;
  kmState : s_km271_status;
  KmRxBlockState : e_rxBlockState;
  rx : rx_state;
  send_request : bool;
  send_buf : list Z;
  km271LogModeActive : bool;
  Serial2_tx : list Z;
  mqtt : list mqtt_msg
}.

Definition set_accessMutex (v : SemaphoreHandle_t) (w : world) : world :=
  {| accessMutex := v; kmState := kmState w; KmRxBlockState := KmRxBlockState w;
     rx := rx w; send_request := send_request w; send_buf := send_buf w;
     km271LogModeActive := km271LogModeActive w; Serial2_tx := Serial2_tx w;
     mqtt := mqtt w |}.

Definition set_kmState (v : s_km271_status) (w : world) : world :=
  {| accessMutex := accessMutex w; kmState := v; KmRxBlockState := KmRxBlockState w;
     rx := rx w; send_request := send_request w; send_buf := send_buf w;
     km271LogModeActive := km271LogModeActive w; Serial2_tx := Serial2_tx w;
     mqtt := mqtt w |}.

Definition set_KmRxBlockState (v : e_rxBlockState) (w : world) : world :=
  {| accessMutex := accessMutex w; kmState := kmState w; KmRxBlockState := v;
     rx := rx w; send_request := send_request w; send_buf := send_buf w;
     km271LogModeActive := km271LogModeActive w; Serial2_tx := Serial2_tx w;
     mqtt := mqtt w |}.

Definition set_rx (v : rx_state) (w : world) : world :=
  {| accessMutex := accessMutex w; kmState := kmState w; KmRxBlockState := KmRxBlockState w;
     rx := v; send_request := send_request w; send_buf := send_buf w;
     km271LogModeActive := km271LogModeActive w; Serial2_tx := Serial2_tx w;
     mqtt := mqtt w |}.

Definition set_send_request (v : bool) (w : world) : world :=
  {| accessMutex := accessMutex w; kmState := kmState w; KmRxBlockState := KmRxBlockState w;
     rx := rx w; send_request := v; send_buf := send_buf w;
     km271LogModeActive := km271LogModeActive w; Serial2_tx := Serial2_tx w;
     mqtt := mqtt w |}.

Definition set_send_buf (v : list Z) (w : world) : world :=
  {| accessMutex := accessMutex w; kmState := kmState w; KmRxBlockState := KmRxBlockState w;
     rx := rx w; send_request := send_request w; send_buf := v;
     km271LogModeActive := km271LogModeActive w; Serial2_tx := Serial2_tx w;
     mqtt := mqtt w |}.

Definition set_km271LogModeActive (v : bool) (w : world) : world :=
  {| accessMutex := accessMutex w; kmState := kmState w; KmRxBlockState := KmRxBlockState w;
     rx := rx w; send_request := send_request w; send_buf := send_buf w;
     km271LogModeActive := v; Serial2_tx := Serial2_tx w;
     mqtt := mqtt w |}.

(** [Serial2.write(bytes, n)]. *)
Definition Serial2_write (bytes : list Z) (w : world) : world :=
  {| accessMutex := accessMutex w; kmState := kmState w; KmRxBlockState := KmRxBlockState w;
     rx := rx w; send_request := send_request w; send_buf := send_buf w;
     km271LogModeActive := km271LogModeActive w; Serial2_tx := Serial2_tx w ++ bytes;
     mqtt := mqtt w |}.

(** A run of [mqttPublish] calls. *)
Definition mqttPublish (msgs : list mqtt_msg) (w : world) : world :=
  {| accessMutex := accessMutex w; kmState := kmState w; KmRxBlockState := KmRxBlockState w;
     rx := rx w; send_request := send_request w; send_buf := send_buf w;
     km271LogModeActive := km271LogModeActive w; Serial2_tx := Serial2_tx w;
     mqtt := mqtt w ++ msgs |}.

(** The globals at program start: initialised as declared, otherwise zero. *)
Definition world_init : world :=
  {| accessMutex := NULL; kmState := status_zero; KmRxBlockState := KM_TSK_START;
     rx := rx_init; send_request := false; send_buf := replicate 8 0;
     km271LogModeActive := false; Serial2_tx := []; mqtt := [] |}.

(** ** Status access *)

(** [km271GetStatus(pDestStatus)]: the result is the content of
    [*pDestStatus] on return. *)
Definition km271GetStatus (pDestStatus : s_km271_status) (w : world) : s_km271_status :=
  match accessMutex w with
  | Handle _ => kmState w
  | NULL => pDestStatus
  end.

Inductive e_ret := RET_OK | RET_ERR.

(** [km271ProtInit]; [mutex] is what [xSemaphoreCreateMutex()] returns.
    Opening the serial port leaves the globals alone. *)
Definition km271ProtInit (mutex : SemaphoreHandle_t) (w : world) : world * e_ret :=
  (set_accessMutex mutex w, RET_OK).

(** ** Command builder: [km271sendCmd] *)

Inductive e_km271_sendCmd :=
| KM271_SENDCMD_HK1_BA
| KM271_SENDCMD_HK1_AUSLEGUNG
| KM271_SENDCMD_HK1_PROGRAMM
| KM271_SENDCMD_WW_BA
| KM271_SENDCMD_SOMMER_AB
| KM271_SENDCMD_FROST_AB
| KM271_SENDCMD_AUSSENHALT
| KM271_SENDCMD_WW_SOLL.

(** The accepting branch of a command: [send_request = true], the eight
    stores into [send_buf], and the confirmation. *)
Definition armCmd (bytes : list Z) (msg : string) (w : world) : world :=
  mqttPublish [pub "/message" (PText msg)]
    (set_send_buf bytes (set_send_request true w)).

Definition rejectCmd (msg : string) (w : world) : world :=
  mqttPublish [pub "/message" (PText msg)] w.

(** The value a [uint8_t] parameter takes when the caller passes the
    integer [n]. *)
Definition to_uint8 (n : Z) : Z := n mod 256.

(** [km271sendCmd(sendCmd, cmdPara)]; [cmdPara] is the [uint8_t] the
    function receives, promoted to [int] in each comparison. *)
Definition km271sendCmd (sendCmd : e_km271_sendCmd) (cmdPara : Z) (w : world) : world :=
  match sendCmd with
  | KM271_SENDCMD_HK1_BA =>
      if (cmdPara >=? 0) && (cmdPara <=? 2) then
        armCmd [0x07; 0x00; 0x65; 0x65; 0x65; 0x65; cmdPara; 0x65]
               "setvalue: hk1_betriebsart - received" w
      else rejectCmd "setvalue: hk1_betriebsart - invald value" w
  | KM271_SENDCMD_HK1_AUSLEGUNG =>
      if (cmdPara >=? 30) && (cmdPara <=? 90) then
        armCmd [0x07; 0x0E; 0x65; 0x65; 0x65; 0x65; cmdPara; 0x65]
               "setvalue: hk1_auslegung - received" w
      else rejectCmd "setvalue: hk1_auslegung - invald value" w
  | KM271_SENDCMD_HK1_PROGRAMM =>
      if (cmdPara >=? 0) && (cmdPara <=? 8) then
        armCmd [0x11; 0x00; cmdPara; 0x65; 0x65; 0x65; 0x65; 0x65]
               "setvalue: hk1_programm - received" w
      else rejectCmd "setvalue: hk1_programm - invald value" w
  | KM271_SENDCMD_WW_BA =>
      if (cmdPara >=? 0) && (cmdPara <=? 2) then
        armCmd [0x0C; 0x0E; cmdPara; 0x65; 0x65; 0x65; 0x65; 0x65]
               "setvalue: dhw_mode - received" w
      else rejectCmd "setvalue: dhw_mode - invald value" w
  | KM271_SENDCMD_SOMMER_AB =>
      if (cmdPara >=? 9) && (cmdPara <=? 31) then
        armCmd [0x07; 0x00; 0x65; cmdPara; 0x65; 0x65; 0x65; 0x65]
               "setvalue: summer_threshold - received" w
      else rejectCmd "setvalue: summer_threshold - invald value" w
  | KM271_SENDCMD_FROST_AB =>
      if (cmdPara >=? -20) && (cmdPara <=? 10) then
        armCmd [0x07; 0x31; 0x65; 0x65; 0x65; 0x65; 0x65; cmdPara]
               "setvalue: frost_ab - received" w
      else rejectCmd "setvalue: frost_ab - invald value" w
  | KM271_SENDCMD_AUSSENHALT =>
      if (cmdPara >=? -20) && (cmdPara <=? 10) then
        armCmd [0x07; 0x15; 0x65; 0x65; cmdPara; 0x65; 0x65; 0x65]
               "setvalue: aussenhalt_ab - received" w
      else rejectCmd "setvalue: aussenhalt_ab - invald value" w
  | KM271_SENDCMD_WW_SOLL =>
      if (cmdPara >=? 30) && (cmdPara <=? 60) then
        armCmd [0x0C; 0x07; 0x65; 0x65; 0x65; cmdPara; 0x65; 0x65]
               "setvalue: dhw_setpoint - received" w
      else rejectCmd "setvalue: dhw_setpoint - invald value" w
  end.

(** ** Date and time: [km271SetDateTime] *)

(** [struct tm], the members the driver reads ([int] each). *)
Record tm := {
  tm_sec : Z;
  tm_min : Z;
  tm_hour : Z;
  tm_mday : Z;
  tm_mon : Z;
  tm_year : Z;
  tm_wday : Z;
  tm_isdst : Z
}.

(** [km271SetDateTime()]; [dti] is the broken-down local time that
    [time] and [localtime_r] deliver.  Every store into [send_buf]
    truncates to [uint8_t]. *)
Definition km271SetDateTime (dti : tm) (w : world) : world :=
  let b4 := to_uint8 (tm_hour dti) in
  let b4 := if tm_isdst dti >? 0
            then to_uint8 (Z.lor b4 (Z.land (Z.shiftl 1 6) 0x40)) else b4 in
  let b6 := to_uint8 (tm_mon dti) in
  let b6 := to_uint8 (Z.lor b6 (Z.land (Z.shiftl (tm_wday dti) 4) 0x70)) in
  armCmd [0x01; 0x00; to_uint8 (tm_sec dti); to_uint8 (tm_min dti); b4;
          to_uint8 (tm_mday dti); b6; to_uint8 (tm_year dti - 1900)]
         "date and time set!" w.

(** ** Payload decoder, session manager and cyclic task *)

Section Driver.

(** Whether the build defines [DEBUG_ON]; the macro is set outside
    [km271.cpp] and [km271.h]. *)
Variable DEBUG_ON : bool.

(** The [switch] of [parseInfo] on the scratch copy [tmpState]: the copy
    after the case, and the publications of the case in order.  A sum of a
    number or table entry and [String(" °C")] is kept as the sum. *)
Definition decodeBlock (data : list Z) (tmpState : s_km271_status)
  : s_km271_status * list mqtt_msg :=
  let kmregister := rd data 0 * 256 + rd data 1 in
  if kmregister =? 0x8000 then
    let tmpState := set_u8 HeatingCircuitOperatingStates_1 (rd data 2) tmpState in
    (tmpState,
     [ pub "/status/HK1_BW1_off_time_optimization"
           (PInt (bitRead (u8 tmpState HeatingCircuitOperatingStates_1) 0));
       pub "/status/HK1_BW1_on_time_optimization"
           (PInt (bitRead (u8 tmpState HeatingCircuitOperatingStates_1) 1));
       pub "/status/HK1_BW1_auto"
           (PInt (bitRead (u8 tmpState HeatingCircuitOperatingStates_1) 2));
       pub "/status/HK1_BW1_DHW_priority"
           (PInt (bitRead (u8 tmpState HeatingCircuitOperatingStates_1) 3));
       pub "/status/HK1_BW1__drying"
           (PInt (bitRead (u8 tmpState HeatingCircuitOperatingStates_1) 4));
       pub "/status/HK1_BW1_holiday"
           (PInt (bitRead (u8 tmpState HeatingCircuitOperatingStates_1) 5));
       pub "/status/HK1_BW1_frost_protection"
           (PInt (bitRead (u8 tmpState HeatingCircuitOperatingStates_1) 6));
       pub "/status/HK1_BW1_manual"
           (PInt (bitRead (u8 tmpState HeatingCircuitOperatingStates_1) 7)) ])
  else
  if kmregister =? 0x8001 then
    let tmpState := set_u8 HeatingCircuitOperatingStates_2 (rd data 2) tmpState in
    (tmpState,
     [ pub "/status/HK1_BW2_summer"
           (PInt (bitRead (u8 tmpState HeatingCircuitOperatingStates_2) 0));
       pub "/status/HK1_BW2_day"
           (PInt (bitRead (u8 tmpState HeatingCircuitOperatingStates_2) 1));
       pub "/status/HK1_BW2_no_operation_with_FB"
           (PInt (bitRead (u8 tmpState HeatingCircuitOperatingStates_2) 2));
       pub "/status/HK1_BW2_FB_faulty"
           (PInt (bitRead (u8 tmpState HeatingCircuitOperatingStates_2) 3));
       pub "/status/HK1_BW2_failure_flow_sensor"
           (PInt (bitRead (u8 tmpState HeatingCircuitOperatingStates_2) 4));
       pub "/status/HK1_BW2_flow_at_maximum"
           (PInt (bitRead (u8 tmpState HeatingCircuitOperatingStates_2) 5));
       pub "/status/HK1_BW2_external_signal_input"
           (PInt (bitRead (u8 tmpState HeatingCircuitOperatingStates_2) 6)) ])
  else
  if kmregister =? 0x8002 then
    let tmpState := set_f32 HeatingForwardTargetTemp (float_of_int (rd data 2)) tmpState in
    (tmpState,
     [ pub "/status/HK1_flow_setpoint"
           (PFloat (f32 tmpState HeatingForwardTargetTemp)) ])
  else
  if kmregister =? 0x8003 then
    let tmpState := set_f32 HeatingForwardActualTemp (float_of_int (rd data 2)) tmpState in
    (tmpState,
     [ pub "/status/HK1_flow_temperature"
           (PFloat (f32 tmpState HeatingForwardActualTemp)) ])
  else
  if kmregister =? 0x8004 then
    let tmpState := set_f32 RoomTargetTemp (decode05cTemp (rd data 2)) tmpState in
    (tmpState,
     [ pub "/status/HK1_room_setpoint"
           (PFloat (f32 tmpState RoomTargetTemp)) ])
  else
  if kmregister =? 0x8005 then
    let tmpState := set_f32 RoomActualTemp (decode05cTemp (rd data 2)) tmpState in
    (tmpState,
     [ pub "/status/HK1_room_temperature"
           (PFloat (f32 tmpState RoomActualTemp)) ])
  else
  if kmregister =? 0x8006 then
    let tmpState := set_u8 SwitchOnOptimizationTime (rd data 2) tmpState in
    (tmpState,
     [ pub "/status/HK1_on_time_optimization_duration"
           (PInt (u8 tmpState SwitchOnOptimizationTime)) ])
  else
  if kmregister =? 0x8007 then
    let tmpState := set_u8 SwitchOffOptimizationTime (rd data 2) tmpState in
    (tmpState,
     [ pub "/status/HK1_off_time_optimization_duration"
           (PInt (u8 tmpState SwitchOffOptimizationTime)) ])
  else
  if kmregister =? 0x8008 then
    let tmpState := set_u8 PumpPower (rd data 2) tmpState in
    (tmpState,
     [ pub "/status/HK1_pump"
           (PInt (u8 tmpState PumpPower)) ])
  else
  if kmregister =? 0x8009 then
    let tmpState := set_u8 MixingValue (rd data 2) tmpState in
    (tmpState,
     [ pub "/status/HK1_mixer"
           (PInt (u8 tmpState MixingValue)) ])
  else
  if kmregister =? 0x800c then
    let tmpState := set_f32 HeatingCurvePlus10 (float_of_int (rd data 2)) tmpState in
    (tmpState,
     [ pub "/status/HK1_heat_curve_10C"
           (PFloat (f32 tmpState HeatingCurvePlus10)) ])
  else
  if kmregister =? 0x800d then
    let tmpState := set_f32 HeatingCurve0 (float_of_int (rd data 2)) tmpState in
    (tmpState,
     [ pub "/status/HK1_heat_curve_0C"
           (PFloat (f32 tmpState HeatingCurve0)) ])
  else
  if kmregister =? 0x800e then
    let tmpState := set_f32 HeatingCurveMinus10 (float_of_int (rd data 2)) tmpState in
    (tmpState,
     [ pub "/status/HK1_heat_curve_-10C"
           (PFloat (f32 tmpState HeatingCurveMinus10)) ])
  else
  if kmregister =? 0x8424 then
    let tmpState := set_u8 HotWaterOperatingStates_1 (rd data 2) tmpState in
    (tmpState,
     [ pub "/status/DHW_BW1_auto"
           (PInt (bitRead (u8 tmpState HotWaterOperatingStates_1) 0));
       pub "/status/DHW_BW1_disinfect"
           (PInt (bitRead (u8 tmpState HotWaterOperatingStates_1) 1));
       pub "/status/DHW_BW1_reload"
           (PInt (bitRead (u8 tmpState HotWaterOperatingStates_1) 2));
       pub "/status/DHW_BW1_holiday"
           (PInt (bitRead (u8 tmpState HotWaterOperatingStates_1) 3));
       pub "/status/DHW_BW1_failure_disinfect"
           (PInt (bitRead (u8 tmpState HotWaterOperatingStates_1) 4));
       pub "/status/DHW_BW1_failure_sensor"
           (PInt (bitRead (u8 tmpState HotWaterOperatingStates_1) 5));
       pub "/status/DHW_BW1_failure_DHW_stays_cold"
           (PInt (bitRead (u8 tmpState HotWaterOperatingStates_1) 6));
       pub "/status/DHW_BW1_failure_anode"
           (PInt (bitRead (u8 tmpState HotWaterOperatingStates_1) 7)) ])
  else
  if kmregister =? 0x8425 then
    let tmpState := set_u8 HotWaterOperatingStates_2 (rd data 2) tmpState in
    (tmpState,
     [ pub "/status/DHW_BW2_load"
           (PInt (bitRead (u8 tmpState HeatingCircuitOperatingStates_1) 0));
       pub "/status/DHW_BW2_manual"
           (PInt (bitRead (u8 tmpState HotWaterOperatingStates_2) 1));
       pub "/status/DHW_BW2_reload"
           (PInt (bitRead (u8 tmpState HotWaterOperatingStates_2) 2));
       pub "/status/DHW_BW2_off_time_optimization"
           (PInt (bitRead (u8 tmpState HotWaterOperatingStates_2) 3));
       pub "/status/DHW_BW2_on_time_optimization"
           (PInt (bitRead (u8 tmpState HotWaterOperatingStates_2) 4));
       pub "/status/DHW_BW2_day"
           (PInt (bitRead (u8 tmpState HotWaterOperatingStates_2) 5));
       pub "/status/DHW_BW2_hot"
           (PInt (bitRead (u8 tmpState HotWaterOperatingStates_2) 6));
       pub "/status/DHW_BW2_priority"
           (PInt (bitRead (u8 tmpState HotWaterOperatingStates_2) 7)) ])
  else
  if kmregister =? 0x8426 then
    let tmpState := set_f32 HotWaterTargetTemp (float_of_int (rd data 2)) tmpState in
    (tmpState,
     [ pub "/status/DHW_setpoint"
           (PFloat (f32 tmpState HotWaterTargetTemp)) ])
  else
  if kmregister =? 0x8427 then
    let tmpState := set_f32 HotWaterActualTemp (float_of_int (rd data 2)) tmpState in
    (tmpState,
     [ pub "/status/DHW_temperature"
           (PFloat (f32 tmpState HotWaterActualTemp)) ])
  else
  if kmregister =? 0x8428 then
    let tmpState := set_u8 HotWaterOptimizationTime (rd data 2) tmpState in
    (tmpState,
     [ pub "/status/DHW_optimization_time"
           (PInt (u8 tmpState HotWaterOptimizationTime)) ])
  else
  if kmregister =? 0x8429 then
    let tmpState := set_u8 HotWaterPumpStates (rd data 2) tmpState in
    (tmpState,
     [ pub "/status/DHW_pump_type_charge"
           (PInt (bitRead (u8 tmpState HotWaterPumpStates) 0));
       pub "/status/DHW_pump_type_circulation"
           (PInt (bitRead (u8 tmpState HotWaterPumpStates) 1));
       pub "/status/DHW_pump_type_groundwater_solar"
           (PInt (bitRead (u8 tmpState HotWaterPumpStates) 2)) ])
  else
  if kmregister =? 0x882a then
    let tmpState := set_f32 BoilerForwardTargetTemp (float_of_int (rd data 2)) tmpState in
    (tmpState,
     [ pub "/status/boiler_setpoint"
           (PFloat (f32 tmpState BoilerForwardTargetTemp)) ])
  else
  if kmregister =? 0x882b then
    let tmpState := set_f32 BoilerForwardActualTemp (float_of_int (rd data 2)) tmpState in
    (tmpState,
     [ pub "/status/boiler_temperature"
           (PFloat (f32 tmpState BoilerForwardActualTemp)) ])
  else
  if kmregister =? 0x882c then
    let tmpState := set_f32 BurnerSwitchOnTemp (float_of_int (rd data 2)) tmpState in
    (tmpState,
     [ pub "/status/burner_switch_on_temperature"
           (PFloat (f32 tmpState BurnerSwitchOnTemp)) ])
  else
  if kmregister =? 0x882d then
    let tmpState := set_f32 BurnerSwitchOffTemp (float_of_int (rd data 2)) tmpState in
    (tmpState,
     [ pub "/status/burner_switch_off_temperature"
           (PFloat (f32 tmpState BurnerSwitchOffTemp)) ])
  else
  if kmregister =? 0x882e then
    let tmpState := set_u8 BoilerIntegral_1 (rd data 2) tmpState in
    (tmpState, [])
  else
  if kmregister =? 0x882f then
    let tmpState := set_u8 BoilerIntegral_2 (rd data 2) tmpState in
    (tmpState, [])
  else
  if kmregister =? 0x8830 then
    let tmpState := set_u8 BoilerErrorStates (rd data 2) tmpState in
    (tmpState,
     [ pub "/status/boiler_failure_burner"
           (PInt (bitRead (u8 tmpState BoilerErrorStates) 0));
       pub "/status/boiler_failure_boiler_sensor"
           (PInt (bitRead (u8 tmpState BoilerErrorStates) 1));
       pub "/status/boiler_failure_aux_sensor"
           (PInt (bitRead (u8 tmpState BoilerErrorStates) 2));
       pub "/status/boiler_failure_boiler_stays_cold"
           (PInt (bitRead (u8 tmpState BoilerErrorStates) 3));
       pub "/status/boiler_failure_exhaust_gas_sensor"
           (PInt (bitRead (u8 tmpState BoilerErrorStates) 4));
       pub "/status/boiler_failure_exhaust_gas_over_limit"
           (PInt (bitRead (u8 tmpState BoilerErrorStates) 5));
       pub "/status/boiler_failure_safety_chain"
           (PInt (bitRead (u8 tmpState BoilerErrorStates) 6));
       pub "/status/boiler_failure_external"
           (PInt (bitRead (u8 tmpState BoilerErrorStates) 7)) ])
  else
  if kmregister =? 0x8831 then
    let tmpState := set_u8 BoilerOperatingStates (rd data 2) tmpState in
    (tmpState,
     [ pub "/status/boiler_state_exhaust_gas_test"
           (PInt (bitRead (u8 tmpState BoilerOperatingStates) 0));
       pub "/status/boiler_state_stage1"
           (PInt (bitRead (u8 tmpState BoilerOperatingStates) 1));
       pub "/status/boiler_state_boiler_protection"
           (PInt (bitRead (u8 tmpState BoilerOperatingStates) 2));
       pub "/status/boiler_state_active"
           (PInt (bitRead (u8 tmpState BoilerOperatingStates) 3));
       pub "/status/boiler_state_performance_free"
           (PInt (bitRead (u8 tmpState BoilerOperatingStates) 4));
       pub "/status/boiler_state_performance_high"
           (PInt (bitRead (u8 tmpState BoilerOperatingStates) 5));
       pub "/status/boiler_state_stage2"
           (PInt (bitRead (u8 tmpState BoilerOperatingStates) 6)) ])
  else
  if kmregister =? 0x8832 then
    let tmpState := set_u8 BurnerStates (rd data 2) tmpState in
    (tmpState,
     [ pub "/status/burner_control"
           (PInt (u8 tmpState BurnerStates)) ])
  else
  if kmregister =? 0x8833 then
    let tmpState := set_f32 ExhaustTemp (float_of_int (rd data 2)) tmpState in
    (tmpState,
     [ pub "/status/exhaust_gas_temperature"
           (PFloat (f32 tmpState ExhaustTemp)) ])
  else
  if kmregister =? 0x8836 then
    let tmpState := set_u8 BurnerOperatingDuration_2 (rd data 2) tmpState in
    (tmpState,
     [ pub "/status/burner_lifetime_minutes65536"
           (PInt (u8 tmpState BurnerOperatingDuration_2)) ])
  else
  if kmregister =? 0x8837 then
    let tmpState := set_u8 BurnerOperatingDuration_1 (rd data 2) tmpState in
    (tmpState,
     [ pub "/status/burner_lifetime_minutes256"
           (PInt (u8 tmpState BurnerOperatingDuration_1)) ])
  else
  if kmregister =? 0x8838 then
    let tmpState := set_u8 BurnerOperatingDuration_0 (rd data 2) tmpState in
    (tmpState,
     [ pub "/status/burner_lifetime_minutes"
           (PInt (u8 tmpState BurnerOperatingDuration_0)) ])
  else
  if kmregister =? 0x893c then
    let tmpState := set_f32 OutsideTemp (decodeNegTemp (rd data 2)) tmpState in
    (tmpState,
     [ pub "/status/outside_temperature"
           (PFloat (f32 tmpState OutsideTemp)) ])
  else
  if kmregister =? 0x893d then
    let tmpState := set_f32 OutsideDampedTemp (decodeNegTemp (rd data 2)) tmpState in
    (tmpState,
     [ pub "/status/outside_temperature_damped"
           (PFloat (f32 tmpState OutsideDampedTemp)) ])
  else
  if kmregister =? 0x893e then
    let tmpState := set_u8 ControllerVersionMain (rd data 2) tmpState in
    (tmpState,
     [ pub "/status/version_VK"
           (PInt (u8 tmpState ControllerVersionMain)) ])
  else
  if kmregister =? 0x893f then
    let tmpState := set_u8 ControllerVersionSub (rd data 2) tmpState in
    (tmpState,
     [ pub "/status/version_NK"
           (PInt (u8 tmpState ControllerVersionSub)) ])
  else
  if kmregister =? 0x8940 then
    let tmpState := set_u8 Modul (rd data 2) tmpState in
    (tmpState,
     [ pub "/status/module_id"
           (PInt (u8 tmpState Modul)) ])
  else
  if kmregister =? 0xaa42 then
    let tmpState := set_u8 ERR_Alarmstatus (rd data 2) tmpState in
    (tmpState,
     [ pub "/status/ERR_alarm_exhaust"
           (PInt (bitRead (u8 tmpState ERR_Alarmstatus) 0));
       pub "/status/ERR_alarm_02"
           (PInt (bitRead (u8 tmpState ERR_Alarmstatus) 1));
       pub "/status/ERR_alarm_boiler_flow_sensor"
           (PInt (bitRead (u8 tmpState ERR_Alarmstatus) 2));
       pub "/status/ERR_alarm_08"
           (PInt (bitRead (u8 tmpState ERR_Alarmstatus) 3));
       pub "/status/ERR_alarm_burner"
           (PInt (bitRead (u8 tmpState ERR_Alarmstatus) 4));
       pub "/status/ERR_alarm_20"
           (PInt (bitRead (u8 tmpState ERR_Alarmstatus) 5));
       pub "/status/ERR_alarm_HK2-flow_sensor"
           (PInt (bitRead (u8 tmpState ERR_Alarmstatus) 6));
       pub "/status/ERR_alarm_80"
           (PInt (bitRead (u8 tmpState ERR_Alarmstatus) 7)) ])
  else
  if kmregister =? 0x0000 then
    (tmpState,
     [ pub "/config/summer_mode_threshold"
           (PText (tbl cfgSummerModeThreshold (rd data (2+1) - 9)));
       pub "/config/HK1_night_temperature"
           (PCat (PFloat (decode05cTemp (rd data (2+2)))) degC);
       pub "/config/HK1_day_temperature"
           (PCat (PFloat (decode05cTemp (rd data (2+3)))) degC);
       pub "/config/HK1_operating_mode"
           (PText (tbl cfgOperatingMode (rd data (2+4))));
       pub "/config/HK1_holiday_temperature"
           (PCat (PFloat (decode05cTemp (rd data (2+5)))) degC) ])
  else
  if kmregister =? 0x000e then
    (tmpState,
     [ pub "/config/HK1_max_temperature"
           (PCat (PInt (rd data (2+2))) degC);
       pub "/config/HK1_explanation"
           (PInt (rd data (2+4))) ])
  else
  if kmregister =? 0x0015 then
    (tmpState,
     [ pub "/config/HK1_switch_on_temperature"
           (PCat (PText (tbl cfgSwitchOnTemperature (rd data 2))) degC);
       pub "/config/HK1_switch_off_threshold"
           (PCat (PFloat (decodeNegTemp (rd data (2+2)))) degC) ])
  else
  if kmregister =? 0x001c then
    (tmpState,
     [ pub "/config/HK1_reduction_mode"
           (PText (tbl cfgReductionMode (rd data (2+1))));
       pub "/config/HK1_heating_system"
           (PText (tbl cfgHeatingSystem (rd data (2+2)))) ])
  else
  if kmregister =? 0x0031 then
    (tmpState,
     [ pub "/config/HK1_temperature_offset"
           (PCat (PFloat (decode05cTemp (uint8_of_float (decodeNegTemp (rd data (2+3)))))) degC);
       pub "/config/HK1_remote_control"
           (PText (tbl cfgOnOff (rd data (2+4))));
       pub "/config/frost_protection_cutoff"
           (PCat (PFloat (decodeNegTemp (rd data (2+5)))) degC) ])
  else
  if kmregister =? 0x004d then
    (tmpState,
     [ pub "/config/DHW_priority"
           (PText (tbl cfgOnOff (rd data (2+1)))) ])
  else
  if kmregister =? 0x0070 then
    (tmpState,
     [ pub "/config/building_type"
           (PText (tbl cfgBuildingType (rd data (2+2)))) ])
  else
  if kmregister =? 0x007e then
    (tmpState,
     [ pub "/config/DHW_temperature"
           (PCat (PInt (rd data (2+3))) degC) ])
  else
  if kmregister =? 0x0085 then
    (tmpState,
     [ pub "/config/DHW_operating_mode"
           (PText (tbl cfgOperatingMode (rd data 2)));
       pub "/config/DHW_processing"
           (PText (tbl cfgOnOff (rd data (2+3))));
       pub "/config/DHW_circulation"
           (PText (tbl cfgCirculationInterval (rd data (2+5)))) ])
  else
  if kmregister =? 0x0093 then
    (tmpState,
     [ pub "/config/language"
           (PText (tbl cfgLanguage (rd data 2)));
       pub "/config/display"
           (PText (tbl cfgDisplay (rd data (2+1)))) ])
  else
  if kmregister =? 0x009a then
    (tmpState,
     [ pub "/config/burner_type"
           (PText (tbl cfgBurnerType (rd data (2+1) - 1)));
       pub "/config/max_boiler_temperature"
           (PCat (PInt (rd data (2+3))) degC) ])
  else
  if kmregister =? 0x00a1 then
    (tmpState,
     [ pub "/config/pump_logic_temperature"
           (PCat (PInt (rd data 2)) degC);
       pub "/config/exhaust_gas_temperature_threshold"
           (PText (tbl cfgExhaustGasThreshold (rd data (2+5) - 9))) ])
  else
  if kmregister =? 0x00a8 then
    (tmpState,
     [ pub "/config/burner_min_modulation"
           (PInt (rd data 2));
       pub "/config/burner_modulation_runtime"
           (PInt (rd data (2+1))) ])
  else
  if kmregister =? 0x0100 then
    (tmpState,
     [ pub "/config/HK1_program"
           (PText (tbl cfgHk1Program (rd data 2))) ])
  else
  if kmregister =? 0x0400 then
    (tmpState, [])
  else
    (tmpState,
     if DEBUG_ON then [ pub "/undefinded_message" (hexDump data) ] else []).

(** [parseInfo(data, len)]: scratch copy of [kmState], the [switch], and
    the write-back when the copy has changed. *)
Definition parseInfo (data : list Z) (len : Z) (w : world) : world :=
  let tmpState := kmState w in
  let '(tmpState, msgs) := decodeBlock data tmpState in
  let w := mqttPublish msgs w in
  if status_differs tmpState (kmState w) then set_kmState tmpState w else w.

(** [handleRxBlock(data, len, bcc)]. *)
Definition handleRxBlock (data : list Z) (len : Z) (bcc : Z) (w : world) : world :=
  match KmRxBlockState w with
  | KM_TSK_START =>
      if rd data 0 =? KM_STX then
        Serial2_write (sendTxBlock KmCSTX 1) w
      else if rd data 0 =? KM_DLE then
        set_KmRxBlockState KM_TSK_LG_CMD (Serial2_write (sendTxBlock KmCLogMode 3) w)
      else w
  | KM_TSK_LG_CMD =>
      if negb (rd data 0 =? KM_DLE) then set_KmRxBlockState KM_TSK_START w
      else set_KmRxBlockState KM_TSK_LOGGING w
  | KM_TSK_LOGGING =>
      if rd data 0 =? KM_STX then
        if send_request w then Serial2_write (sendTxBlock KmCSTX 1) w
        else Serial2_write (sendTxBlock KmCDLE 1) w
      else if rd data 0 =? KM_DLE then
        set_KmRxBlockState KM_TSK_START
          (set_send_request false
             (Serial2_write (sendTxBlock (send_buf w) 8) w))
      else
        Serial2_write (sendTxBlock KmCDLE 1) (parseInfo data len w)
  end.

(** Carrying out one call of the receiver. *)
Definition execCall (w : world) (c : call) : world :=
  match c with
  | Call_handleRxBlock data len bcc => handleRxBlock data len bcc w
  | Call_sendTxBlock data len => Serial2_write (sendTxBlock data len) w
  end.

(** [cyclicKM271()]; [rxByte] is [Some b] when [Serial2.readBytes] delivers
    the byte [b] and [None] on timeout. *)
Definition cyclicKM271 (rxByte : option Z) (w : world) : world :=
  let w :=
    match rxByte with
    | Some b =>
        let '(s, calls) := rxByteStep b (rx w) in
        fold_left execCall calls (set_rx s w)
    | None => w
    end in
  set_km271LogModeActive
    (match KmRxBlockState w with KM_TSK_LOGGING => true | _ => false end) w.

End Driver.

(** * Notions used in the statements *)

(** The cyclic task run once per received byte of a sequence. *)
Definition cyclicRun (DEBUG_ON : bool) (bytes : list Z) (w : world) : world :=
  fold_left (fun w b => cyclicKM271 DEBUG_ON (Some b) w) bytes w.

(** The driver in logging mode: the start-up handshake [02 10 10] done. *)
Definition world_logging : world := cyclicRun false [0x02; 0x10; 0x10] world_init.

(** XOR of a byte sequence. *)
Definition xor_all (bytes : list Z) : Z := foldr Z.lxor 0 bytes.

(** The statuses the receiver takes after each byte of a sequence. *)
Fixpoint rxStatuses (bytes : list Z) (s : rx_state) : list e_rxState :=
  match bytes with
  | [] => []
  | b :: rest =>
      let s1 := fst (rxByteStep b s) in
      kmRxStatus s1 :: rxStatuses rest s1
  end.

(** What a call hands over stays within the receive array. *)
Definition call_within_buffer (c : call) : Prop :=
  match c with
  | Call_handleRxBlock data l _ => 0 <= l <= KM_RX_BUF_LEN /\ length data = 20%nat
  | Call_sendTxBlock _ _ => True
  end.

(** The receive block is a 20-byte array filled to at most its size. *)
Definition rx_wf (s : rx_state) : Prop :=
  0 <= len (kmRxBuf s) <= KM_RX_BUF_LEN /\ length (buf (kmRxBuf s)) = 20%nat.

(** The payload with every DLE doubled. *)
Fixpoint stuffed (payload : list Z) : list Z :=
  match payload with
  | [] => []
  | d :: rest => (if d =? KM_DLE then [d; d] else [d]) ++ stuffed rest
  end.

(** A two-byte payload that begins with STX. *)
Definition c1_bad_payload : list Z := [0x02; 0x05].

(** The receiver after the 20 bytes [41 41 ... 41] from idle. *)
Definition rx_full : rx_state := fst (rxRun (replicate 20 0x41) rx_idle).

(** The receiver after the frame bytes [05 10 03] from idle. *)
Definition rx_at_bcc : rx_state := fst (rxRun [0x05; 0x10; 0x03] rx_idle).

(** The block [84 25 01] in the receive array. *)
Definition c7_block : list Z := [0x84; 0x25; 0x01] ++ replicate 17 0.

(** The catalogue's parameter ranges, as the specification tabulates them
    (lower bound, upper bound). *)
Definition spec_param_range (c : e_km271_sendCmd) : Z * Z :=
  match c with
  | KM271_SENDCMD_HK1_BA => (0, 2)
  | KM271_SENDCMD_HK1_AUSLEGUNG => (30, 90)
  | KM271_SENDCMD_HK1_PROGRAMM => (0, 8)
  | KM271_SENDCMD_WW_BA => (0, 2)
  | KM271_SENDCMD_SOMMER_AB => (9, 31)
  | KM271_SENDCMD_FROST_AB => (-20, 10)
  | KM271_SENDCMD_AUSSENHALT => (-20, 10)
  | KM271_SENDCMD_WW_SOLL => (30, 60)
  end.

Definition param_in_range (c : e_km271_sendCmd) (p : Z) : bool :=
  (fst (spec_param_range c) <=? p) && (p <=? snd (spec_param_range c)).

(** The name under which each command reports on [/message]. *)
Definition cmd_label (c : e_km271_sendCmd) : string :=
  match c with
  | KM271_SENDCMD_HK1_BA => "hk1_betriebsart"
  | KM271_SENDCMD_HK1_AUSLEGUNG => "hk1_auslegung"
  | KM271_SENDCMD_HK1_PROGRAMM => "hk1_programm"
  | KM271_SENDCMD_WW_BA => "dhw_mode"
  | KM271_SENDCMD_SOMMER_AB => "summer_threshold"
  | KM271_SENDCMD_FROST_AB => "frost_ab"
  | KM271_SENDCMD_AUSSENHALT => "aussenhalt_ab"
  | KM271_SENDCMD_WW_SOLL => "dhw_setpoint"
  end.

Definition confirmation_text (c : e_km271_sendCmd) : string :=
  String.append "setvalue: " (String.append (cmd_label c) " - received").

Definition rejection_text (c : e_km271_sendCmd) : string :=
  String.append "setvalue: " (String.append (cmd_label c) " - invald value").

(** The register identifier under which [parseInfo] assigns each member. *)
Definition u8_register (m : u8_field) : Z :=
  match m with
  | HeatingCircuitOperatingStates_1 => 0x8000
  | HeatingCircuitOperatingStates_2 => 0x8001
  | SwitchOnOptimizationTime => 0x8006
  | SwitchOffOptimizationTime => 0x8007
  | PumpPower => 0x8008
  | MixingValue => 0x8009
  | HotWaterOperatingStates_1 => 0x8424
  | HotWaterOperatingStates_2 => 0x8425
  | HotWaterOptimizationTime => 0x8428
  | HotWaterPumpStates => 0x8429
  | BoilerIntegral_1 => 0x882e
  | BoilerIntegral_2 => 0x882f
  | BoilerErrorStates => 0x8830
  | BoilerOperatingStates => 0x8831
  | BurnerStates => 0x8832
  | BurnerOperatingDuration_2 => 0x8836
  | BurnerOperatingDuration_1 => 0x8837
  | BurnerOperatingDuration_0 => 0x8838
  | ControllerVersionMain => 0x893e
  | ControllerVersionSub => 0x893f
  | Modul => 0x8940
  | ERR_Alarmstatus => 0xaa42
  end.

Definition f32_register (m : f32_field) : Z :=
  match m with
  | HeatingForwardTargetTemp => 0x8002
  | HeatingForwardActualTemp => 0x8003
  | RoomTargetTemp => 0x8004
  | RoomActualTemp => 0x8005
  | HeatingCurvePlus10 => 0x800c
  | HeatingCurve0 => 0x800d
  | HeatingCurveMinus10 => 0x800e
  | HotWaterTargetTemp => 0x8426
  | HotWaterActualTemp => 0x8427
  | BoilerForwardTargetTemp => 0x882a
  | BoilerForwardActualTemp => 0x882b
  | BurnerSwitchOnTemp => 0x882c
  | BurnerSwitchOffTemp => 0x882d
  | ExhaustTemp => 0x8833
  | OutsideTemp => 0x893c
  | OutsideDampedTemp => 0x893d
  end.

(** The register identifier of a block: its first two bytes, big-endian. *)
Definition block_register (data : list Z) : Z := rd data 0 * 256 + rd data 1.

(** The block [80 08 64] (pump power 100 %) in the receive array. *)
Definition c9_block : list Z := [0x80; 0x08; 0x64] ++ replicate 17 0.

(** A caller's structure that differs from the zero-initialised store. *)
Definition c10_dest : s_km271_status := set_u8 PumpPower 77 status_zero.

(** ** Notions for the further properties *)

(** The bytes [sendTxBlock] writes for a payload given with its own length. *)
Definition encode (payload : list Z) : list Z :=
  sendTxBlock payload (Z.of_nat (length payload)).

(** The check byte that closes the frame of a payload. *)
Definition frame_bcc (payload : list Z) : Z :=
  Z.lxor (Z.lxor (xor_all (stuffed payload)) KM_DLE) KM_ETX.

(** A payload [sendTxBlock] and the receiver treat alike: 1 to 20 bytes,
    and a protocol byte in front only when it is the whole payload. *)
Definition payload_ok (payload : list Z) : Prop :=
  (1 <= length payload <= 20)%nat
  /\ (length payload = 1%nat \/ is_protocol_byte (rd payload 0) = false).

(** The block a call hands to [handleRxBlock]: the first [len] bytes of
    the array. *)
Definition handed_block (c : call) : option (list Z) :=
  match c with
  | Call_handleRxBlock data l _ => Some (take (Z.to_nat l) data)
  | Call_sendTxBlock _ _ => None
  end.

(** A call to [handleRxBlock] hands over either one protocol byte or a
    block of 1 to 20 bytes that does not begin with a protocol byte. *)
Definition call_shape (c : call) : Prop :=
  match c with
  | Call_handleRxBlock data l bcc =>
      length data = 20%nat
      /\ ((l = 1 /\ is_protocol_byte (rd data 0) = true /\ bcc = rd data 0)
          \/ (1 <= l <= KM_RX_BUF_LEN /\ is_protocol_byte (rd data 0) = false))
  | Call_sendTxBlock data l => data = KmCNAK /\ l = 1
  end.

(** While a block is being received its first byte is in place and is not
    a protocol byte. *)
Definition rx_block_inv (s : rx_state) : Prop :=
  length (buf (kmRxBuf s)) = 20%nat
  /\ match kmRxStatus s with
     | KM_RX_ON | KM_RX_DLE | KM_RX_BCC =>
         1 <= len (kmRxBuf s) <= KM_RX_BUF_LEN
         /\ is_protocol_byte (rd (buf (kmRxBuf s)) 0) = false
     | KM_RX_RESYNC | KM_RX_IDLE => True
     end.

(** The decoder each [float] member is assigned through. *)
Definition f32_decoder (m : f32_field) : Z -> Q :=
  match m with
  | RoomTargetTemp | RoomActualTemp => decode05cTemp
  | OutsideTemp | OutsideDampedTemp => decodeNegTemp
  | _ => float_of_int
  end.

(** The integer a publication carries ([String(n)]), if it carries one. *)
Definition payload_int (m : mqtt_msg) : option Z :=
  match payload m with
  | PInt n => Some n
  | _ => None
  end.

(** The number whose binary digits are given least significant first. *)
Fixpoint lsb_first_value (bits : list Z) : Z :=
  match bits with
  | [] => 0
  | b :: rest => b + 2 * lsb_first_value rest
  end.

(** The case labels of [parseInfo]'s [switch]. *)
Definition known_registers : list Z :=
  [ 0x8000; 0x8001; 0x8002; 0x8003; 0x8004; 0x8005; 0x8006; 0x8007; 0x8008;
    0x8009; 0x800c; 0x800d; 0x800e; 0x8424; 0x8425; 0x8426; 0x8427; 0x8428;
    0x8429; 0x882a; 0x882b; 0x882c; 0x882d; 0x882e; 0x882f; 0x8830; 0x8831;
    0x8832; 0x8833; 0x8836; 0x8837; 0x8838; 0x893c; 0x893d; 0x893e; 0x893f;
    0x8940; 0xaa42;
    0x0000; 0x000e; 0x0015; 0x001c; 0x0031; 0x004d; 0x0070; 0x007e; 0x0085;
    0x0093; 0x009a; 0x00a1; 0x00a8; 0x0100; 0x0400 ].

Definition is_known_register (reg : Z) : bool := existsb (Z.eqb reg) known_registers.

(** The layout of each command in [send_buf]: data type (byte 0), offset
    (byte 1) and the index of the byte that takes the parameter. *)
Definition cmd_type (c : e_km271_sendCmd) : Z :=
  match c with
  | KM271_SENDCMD_HK1_PROGRAMM => 0x11
  | KM271_SENDCMD_WW_BA | KM271_SENDCMD_WW_SOLL => 0x0C
  | _ => 0x07
  end.

Definition cmd_offset (c : e_km271_sendCmd) : Z :=
  match c with
  | KM271_SENDCMD_HK1_BA => 0x00
  | KM271_SENDCMD_HK1_AUSLEGUNG => 0x0E
  | KM271_SENDCMD_HK1_PROGRAMM => 0x00
  | KM271_SENDCMD_WW_BA => 0x0E
  | KM271_SENDCMD_SOMMER_AB => 0x00
  | KM271_SENDCMD_FROST_AB => 0x31
  | KM271_SENDCMD_AUSSENHALT => 0x15
  | KM271_SENDCMD_WW_SOLL => 0x07
  end.

Definition cmd_slot (c : e_km271_sendCmd) : nat :=
  match c with
  | KM271_SENDCMD_HK1_BA => 6
  | KM271_SENDCMD_HK1_AUSLEGUNG => 6
  | KM271_SENDCMD_HK1_PROGRAMM => 2
  | KM271_SENDCMD_WW_BA => 2
  | KM271_SENDCMD_SOMMER_AB => 3
  | KM271_SENDCMD_FROST_AB => 7
  | KM271_SENDCMD_AUSSENHALT => 4
  | KM271_SENDCMD_WW_SOLL => 5
  end.

(** The parameter bytes [km271sendCmd] accepts. *)
Definition cmd_accepts (c : e_km271_sendCmd) (p : Z) : bool :=
  (0 <=? p) && (p <=? 255) && param_in_range c p.

(** A broken-down time whose members are in their calendar ranges. *)
Definition tm_in_range (dti : tm) : Prop :=
  0 <= tm_sec dti <= 60 /\ 0 <= tm_min dti <= 59 /\ 0 <= tm_hour dti <= 23
  /\ 1 <= tm_mday dti <= 31 /\ 0 <= tm_mon dti <= 11 /\ 0 <= tm_wday dti <= 6.

(** The calls of the receiver carried out in order. *)
Definition drive (DEBUG_ON : bool) (calls : list call) (w : world) : world :=
  fold_left (execCall DEBUG_ON) calls w.

(** [KmRxBlockState == KM_TSK_LOGGING]. *)
Definition is_logging (w : world) : bool :=
  match KmRxBlockState w with KM_TSK_LOGGING => true | _ => false end.

(** A world with the driver in logging mode and the receiver idle. *)
Definition logging_idle (w : world) : Prop :=
  KmRxBlockState w = KM_TSK_LOGGING
  /\ kmRxStatus (rx w) = KM_RX_IDLE
  /\ length (buf (kmRxBuf (rx w))) = 20%nat.

(** The block [89 3C F6] (outside temperature, raw F6) in the receive array. *)
Definition x6_block : list Z := [0x89; 0x3C; 0xF6] ++ replicate 17 0.

(** The payload [89 3C F6]: outside temperature, raw F6. *)
Definition x11_payload : list Z := [0x89; 0x3C; 0xF6].

(** The content of [send_buf] after an accepted command: data type,
    offset, then 0x65 everywhere but in the parameter's byte. *)
Definition cmd_layout (c : e_km271_sendCmd) (p : Z) : list Z :=
  <[cmd_slot c := p]> ([cmd_type c; cmd_offset c] ++ replicate 6 0x65).

(** The registers whose eight bits are all published, each from the member
    just assigned. *)
Definition full_bitfield_registers : list Z := [0x8000; 0x8424; 0x8830; 0xaa42].

(** Friday 30 October 2026, 17:45:12, no daylight saving, as [struct tm]
    holds it (months from 0, years from 1900, weekdays from Sunday). *)
Definition x14_time : tm :=
  {| tm_sec := 12; tm_min := 45; tm_hour := 17; tm_mday := 30; tm_mon := 9;
     tm_year := 126; tm_wday := 5; tm_isdst := 0 |}.

(** The block [80 00 A5] (first HK1 bitfield, bits 0, 2, 5, 7 set). *)
Definition x15_block : list Z := [0x80; 0x00; 0xA5] ++ replicate 17 0.

(** A block with the unknown register 0x1234. *)
Definition x17_block : list Z := [0x12; 0x34; 0x56] ++ replicate 17 0.

(** * Properties *)

(** ** The end-to-end scenarios, run on the embedding *)

(** Cold start: the peer's STX is answered with STX, its DLE with the
    framed log-mode command, and its second DLE opens logging mode. *)
Example scenario_cold_start :
  Serial2_tx world_logging = [0x02; 0xEE; 0x00; 0x00; 0x10; 0x03; 0xFD]
  /\ KmRxBlockState world_logging = KM_TSK_LOGGING
  /\ km271LogModeActive world_logging = true.
Proof. vm_compute. repeat split. Qed.

(** Status frame: in logging mode the block [80 02 41] is published as
    HK1_flow_setpoint = 65 and acknowledged with DLE. *)
Example scenario_status_frame :
  let w := cyclicRun false [0x02; 0x80; 0x02; 0x41; 0x10; 0x03; 0xD0] world_logging in
  Serial2_tx w = Serial2_tx world_logging ++ [0x10; 0x10]
  /\ mqtt w = [pub "/status/HK1_flow_setpoint" (PFloat (inject_Z 65))]
  /\ f32 (kmState w) HeatingForwardTargetTemp = inject_Z 65.
Proof. vm_compute. repeat split. Qed.

(** DLE stuffing: the payload [88 2B 10] travels as [88 2B 10 10]. *)
Example scenario_dle_stuffing :
  sendTxBlock [0x88; 0x2B; 0x10] 3 = [0x88; 0x2B; 0x10; 0x10; 0x10; 0x03; 0xB0]
  /\ f32 (kmState (cyclicRun false [0x88; 0x2B; 0x10; 0x10; 0x10; 0x03; 0xB0] world_logging))
       BoilerForwardActualTemp = inject_Z 16.
Proof. vm_compute. repeat split. Qed.

(** BCC failure: a wrong BCC is answered with NAK and changes neither the
    session state nor the store; the retransmission is then parsed. *)
Example scenario_bcc_failure :
  let w1 := cyclicRun false [0x80; 0x02; 0x41; 0x10; 0x03; 0x00] world_logging in
  let w2 := cyclicRun false [0x80; 0x02; 0x41; 0x10; 0x03; 0xD0] w1 in
  Serial2_tx w1 = Serial2_tx world_logging ++ [0x15]
  /\ KmRxBlockState w1 = KM_TSK_LOGGING
  /\ mqtt w1 = []
  /\ Serial2_tx w2 = Serial2_tx w1 ++ [0x10]
  /\ mqtt w2 = [pub "/status/HK1_flow_setpoint" (PFloat (inject_Z 65))].
Proof. vm_compute. repeat split. Qed.

(** Command round trip: DHW setpoint 55 arms the slot; the peer's STX is
    answered with STX, its DLE with the framed command, after which the
    slot is free and the session is back in the start state. *)
Example scenario_command_round_trip :
  let w1 := km271sendCmd KM271_SENDCMD_WW_SOLL 55 world_logging in
  let w2 := cyclicRun false [0x02; 0x10] w1 in
  send_request w1 = true
  /\ send_buf w1 = [0x0C; 0x07; 0x65; 0x65; 0x65; 0x37; 0x65; 0x65]
  /\ Serial2_tx w2 = Serial2_tx w1 ++
       [0x02; 0x0C; 0x07; 0x65; 0x65; 0x65; 0x37; 0x65; 0x65; 0x10; 0x03; 0x4A]
  /\ send_request w2 = false
  /\ KmRxBlockState w2 = KM_TSK_START.
Proof. vm_compute. repeat split. Qed.

(** ** Frame codec: general facts *)

Lemma xor_all_app a b : xor_all (a ++ b) = Z.lxor (xor_all a) (xor_all b).
Proof.
  induction a as [|x a IH]; simpl.
  - reflexivity.
  - rewrite IH. now rewrite Z.lxor_assoc.
Qed.

Lemma rxRun_app a b s :
  rxRun (a ++ b) s =
  let '(s1, c1) := rxRun a s in
  let '(s2, c2) := rxRun b s1 in
  (s2, c1 ++ c2).
Proof.
  revert s. induction a as [|x a IH]; intros s; simpl.
  - now destruct (rxRun b s).
  - destruct (rxByteStep x s) as [s1 c1].
    rewrite IH. destruct (rxRun a s1) as [s2 c2].
    destruct (rxRun b s2) as [s3 c3]. now rewrite app_assoc.
Qed.

Lemma rx_init_wf : rx_wf rx_init.
Proof. split; simpl; [unfold KM_RX_BUF_LEN; lia | reflexivity]. Qed.

(** One byte keeps the block within the array, whatever the byte. *)
Lemma rxByteStep_wf b s :
  rx_wf s ->
  rx_wf (fst (rxByteStep b s)) /\ Forall call_within_buffer (snd (rxByteStep b s)).
Proof.
  intros [Hl Hb]. unfold rxByteStep, rx_wf, KM_RX_BUF_LEN in *.
  destruct (kmRxStatus s); simpl;
    repeat match goal with
           | |- context [if ?c then _ else _] => destruct c eqn:?
           end; simpl;
    rewrite ?length_insert;
    repeat split; try lia; try assumption;
    repeat constructor; simpl; rewrite ?length_insert; try lia; try assumption.
  all: unfold KM_RX_BUF_LEN; try lia.
  all: try (rewrite Z.mod_small; lia).
Qed.

Lemma rxRun_wf bytes s :
  rx_wf s ->
  rx_wf (fst (rxRun bytes s)) /\ Forall call_within_buffer (snd (rxRun bytes s)).
Proof.
  revert s. induction bytes as [|b rest IH]; intros s Hs; simpl.
  - split; [assumption | constructor].
  - destruct (rxByteStep_wf b s Hs) as [H1 H2].
    destruct (rxByteStep b s) as [s1 c1]; simpl in *.
    destruct (IH s1 H1) as [H3 H4].
    destruct (rxRun rest s1) as [s2 c2]; simpl in *.
    split; [assumption | now apply Forall_app].
Qed.

(** The transitions, one lemma per row of the receiver's table. *)

Lemma step_resync_other b s :
  kmRxStatus s = KM_RX_RESYNC -> b <> KM_STX ->
  rxByteStep b s = (mkRx KM_RX_RESYNC (Z.lxor (kmRxBcc s) b) (kmRxBuf s), []).
Proof.
  intros Hs Hb. unfold rxByteStep. rewrite Hs.
  now destruct (Z.eqb_spec b KM_STX).
Qed.

Lemma step_idle_data b s :
  kmRxStatus s = KM_RX_IDLE -> is_protocol_byte b = false ->
  rxByteStep b s =
  (mkRx KM_RX_ON b {| len := 1; buf := <[0%nat := b]> (buf (kmRxBuf s)) |}, []).
Proof. intros Hs Hb. unfold rxByteStep. now rewrite Hs, Hb. Qed.

Lemma step_idle_protocol b s :
  kmRxStatus s = KM_RX_IDLE -> is_protocol_byte b = true ->
  rxByteStep b s =
  (mkRx KM_RX_IDLE b {| len := 1; buf := <[0%nat := b]> (buf (kmRxBuf s)) |},
   [Call_handleRxBlock (<[0%nat := b]> (buf (kmRxBuf s))) 1 b]).
Proof. intros Hs Hb. unfold rxByteStep. now rewrite Hs, Hb. Qed.

Lemma step_on_dle s :
  kmRxStatus s = KM_RX_ON ->
  rxByteStep KM_DLE s = (mkRx KM_RX_DLE (Z.lxor (kmRxBcc s) KM_DLE) (kmRxBuf s), []).
Proof. intros Hs. unfold rxByteStep. now rewrite Hs. Qed.

Lemma step_on_store b s :
  kmRxStatus s = KM_RX_ON -> b <> KM_DLE -> 0 <= len (kmRxBuf s) < KM_RX_BUF_LEN ->
  rxByteStep b s =
  (mkRx KM_RX_ON (Z.lxor (kmRxBcc s) b)
     {| len := len (kmRxBuf s) + 1;
        buf := <[Z.to_nat (len (kmRxBuf s)) := b]> (buf (kmRxBuf s)) |}, []).
Proof.
  intros Hs Hb Hl. unfold rxByteStep, KM_RX_BUF_LEN in *. rewrite Hs.
  destruct (Z.eqb_spec b KM_DLE); [contradiction|].
  destruct (Z.geb_spec (len (kmRxBuf s)) 20); [lia|].
  rewrite Z.mod_small by lia. reflexivity.
Qed.

Lemma step_on_full b s :
  kmRxStatus s = KM_RX_ON -> b <> KM_DLE -> KM_RX_BUF_LEN <= len (kmRxBuf s) ->
  rxByteStep b s = (mkRx KM_RX_RESYNC (Z.lxor (kmRxBcc s) b) (kmRxBuf s), []).
Proof.
  intros Hs Hb Hl. unfold rxByteStep, KM_RX_BUF_LEN in *. rewrite Hs.
  destruct (Z.eqb_spec b KM_DLE); [contradiction|].
  destruct (Z.geb_spec (len (kmRxBuf s)) 20); [reflexivity|lia].
Qed.

Lemma step_dle_dle s :
  kmRxStatus s = KM_RX_DLE -> 0 <= len (kmRxBuf s) < KM_RX_BUF_LEN ->
  rxByteStep KM_DLE s =
  (mkRx KM_RX_ON (Z.lxor (kmRxBcc s) KM_DLE)
     {| len := len (kmRxBuf s) + 1;
        buf := <[Z.to_nat (len (kmRxBuf s)) := KM_DLE]> (buf (kmRxBuf s)) |}, []).
Proof.
  intros Hs Hl. unfold rxByteStep, KM_RX_BUF_LEN in *. rewrite Hs. simpl.
  destruct (Z.geb_spec (len (kmRxBuf s)) 20); [lia|].
  rewrite Z.mod_small by lia. reflexivity.
Qed.

Lemma step_dle_etx s :
  kmRxStatus s = KM_RX_DLE ->
  rxByteStep KM_ETX s = (mkRx KM_RX_BCC (Z.lxor (kmRxBcc s) KM_ETX) (kmRxBuf s), []).
Proof. intros Hs. unfold rxByteStep. now rewrite Hs. Qed.

Lemma step_bcc b s :
  kmRxStatus s = KM_RX_BCC ->
  rxByteStep b s =
  (mkRx KM_RX_IDLE (Z.lxor (kmRxBcc s) b) (kmRxBuf s),
   if Z.lxor (kmRxBcc s) b =? 0
   then [Call_handleRxBlock (buf (kmRxBuf s)) (len (kmRxBuf s)) b]
   else [Call_sendTxBlock KmCNAK 1]).
Proof. intros Hs. unfold rxByteStep. now rewrite Hs. Qed.

(** Outside the idle state every byte is folded into the running BCC. *)
Lemma step_bcc_accumulates b s :
  kmRxStatus s <> KM_RX_IDLE ->
  kmRxBcc (fst (rxByteStep b s)) = Z.lxor (kmRxBcc s) b.
Proof.
  intros Hs. unfold rxByteStep.
  destruct (kmRxStatus s); try contradiction; simpl;
    repeat match goal with
           | |- context [if ?c then _ else _] => destruct c
           end; reflexivity.
Qed.

(** In the idle state the running BCC restarts from the byte. *)
Lemma step_bcc_restarts b s :
  kmRxStatus s = KM_RX_IDLE ->
  kmRxBcc (fst (rxByteStep b s)) = b.
Proof.
  intros Hs. unfold rxByteStep. rewrite Hs.
  now destruct (is_protocol_byte b).
Qed.

(** In resync only [STX] is reacted to. *)
Lemma rxRun_resync_silent bytes s :
  kmRxStatus s = KM_RX_RESYNC ->
  Forall (fun b => b <> KM_STX) bytes ->
  kmRxStatus (fst (rxRun bytes s)) = KM_RX_RESYNC
  /\ kmRxBuf (fst (rxRun bytes s)) = kmRxBuf s
  /\ snd (rxRun bytes s) = [].
Proof.
  revert s. induction bytes as [|b rest IH]; intros s Hs Hall; simpl.
  - auto.
  - inversion Hall as [|? ? Hb Hrest]; subst.
    rewrite (step_resync_other b s Hs Hb).
    specialize (IH (mkRx KM_RX_RESYNC (Z.lxor (kmRxBcc s) b) (kmRxBuf s)) eq_refl Hrest).
    destruct (rxRun rest _) as [s2 c2]; simpl in *.
    destruct IH as (? & ? & ->). auto.
Qed.

(** Within a block, the running BCC is the XOR of the bytes received since
    the block's opening. *)
Lemma rxRun_bcc_of_block b0 mid s :
  kmRxStatus s = KM_RX_IDLE ->
  Forall (fun st => st <> KM_RX_IDLE) (rxStatuses (b0 :: mid) s) ->
  kmRxBcc (fst (rxRun (b0 :: mid) s)) = xor_all (b0 :: mid).
Proof.
  intros Hs Hall. simpl in Hall. inversion Hall as [|? ? H0 Hmid]; subst.
  simpl. pose proof (step_bcc_restarts b0 s Hs) as Hb0.
  destruct (rxByteStep b0 s) as [s1 c1]; simpl in *.
  assert (Hgen : forall bytes t,
             kmRxStatus t <> KM_RX_IDLE ->
             Forall (fun st => st <> KM_RX_IDLE) (rxStatuses bytes t) ->
             kmRxBcc (fst (rxRun bytes t)) = Z.lxor (kmRxBcc t) (xor_all bytes)).
  { clear. induction bytes as [|b rest IH]; intros t Ht Hall; simpl.
    - now rewrite Z.lxor_0_r.
    - simpl in Hall. inversion Hall as [|? ? H1 Hrest]; subst.
      pose proof (step_bcc_accumulates b t Ht) as Hacc.
      destruct (rxByteStep b t) as [t1 d1]; simpl in *.
      specialize (IH t1 H1 Hrest).
      destruct (rxRun rest t1) as [t2 d2]; simpl in *.
      rewrite IH, Hacc. now rewrite Z.lxor_assoc. }
  specialize (Hgen mid s1 H0 Hmid).
  destruct (rxRun mid s1) as [s2 c2]; simpl in *.
  now rewrite Hgen, Hb0.
Qed.

(** ** Encoder: what [sendTxBlock] puts on the wire *)

Lemma stuffed_app a b : stuffed (a ++ b) = stuffed a ++ stuffed b.
Proof.
  induction a as [|x a IH]; simpl; [reflexivity|].
  rewrite IH. now destruct (x =? KM_DLE).
Qed.

Lemma rd_lookup (a : list Z) i d : a !! i = Some d -> rd a i = d.
Proof. intros H. unfold rd. now apply nth_lookup_Some with (d := 0) in H. Qed.

(** The loop of [sendTxBlock] after [k] iterations. *)
Lemma txLoop_prefix data k :
  (k <= length data)%nat ->
  fold_left (txLoopBody data) (seq 0 k) ([], 0) =
  (stuffed (take k data), xor_all (stuffed (take k data))).
Proof.
  induction k as [|k IH]; intros Hk.
  - reflexivity.
  - rewrite seq_S, fold_left_app, IH by lia. simpl.
    destruct (lookup_lt_is_Some_2 data k ltac:(lia)) as [d Hd].
    rewrite (take_S_r _ _ _ Hd), stuffed_app, xor_all_app.
    rewrite (rd_lookup _ _ _ Hd). simpl.
    assert (Hbcc : (if (0 <? k)%nat then Z.lxor (xor_all (stuffed (take k data))) d else d)
                   = Z.lxor (xor_all (stuffed (take k data))) d).
    { destruct k; simpl; [now rewrite Z.lxor_0_l | reflexivity]. }
    rewrite Hbcc.
    destruct (d =? KM_DLE); simpl; rewrite ?app_nil_r, ?Z.lxor_0_r.
    + rewrite <- app_assoc. simpl. f_equal.
      now rewrite Z.lxor_assoc.
    + reflexivity.
Qed.

(** A block (anything but a lone protocol byte) goes out stuffed and
    followed by DLE, ETX and the BCC over everything before it. *)
Lemma sendTxBlock_block payload :
  payload <> [] ->
  (length payload <> 1%nat \/ is_protocol_byte (rd payload 0) = false) ->
  sendTxBlock payload (Z.of_nat (length payload)) =
  stuffed payload ++
  [KM_DLE; KM_ETX; Z.lxor (Z.lxor (xor_all (stuffed payload)) KM_DLE) KM_ETX].
Proof.
  intros Hne Hblk. unfold sendTxBlock.
  destruct (Z.eqb_spec (Z.of_nat (length payload)) 0) as [H0|_].
  { destruct payload; [contradiction | simpl in H0; lia]. }
  assert (Hc : (Z.of_nat (length payload) =? 1) && is_protocol_byte (rd payload 0) = false).
  { destruct Hblk as [Hl| ->]; [|apply andb_false_r].
    destruct (Z.eqb_spec (Z.of_nat (length payload)) 1); [lia | reflexivity]. }
  rewrite Hc, Nat2Z.id, txLoop_prefix, firstn_all by lia.
  now rewrite <- !app_assoc.
Qed.

(** A lone protocol byte goes out as it is. *)
Lemma sendTxBlock_protocol_byte b :
  is_protocol_byte b = true -> sendTxBlock [b] 1 = [b].
Proof.
  intros Hb. unfold sendTxBlock. change (rd [b] 0) with b.
  now rewrite Hb.
Qed.

(** ** Decoder: receiving the stuffed bytes of a block *)

Lemma take_insert_next (l : list Z) n d :
  (n < length l)%nat -> take (S n) (<[n := d]> l) = take n l ++ [d].
Proof.
  intros Hn. rewrite (take_S_r _ _ d).
  - now rewrite take_insert_ge by lia.
  - now apply list_lookup_insert_eq.
Qed.

Lemma rxRun_stuffed rest : forall s,
  kmRxStatus s = KM_RX_ON ->
  0 <= len (kmRxBuf s) ->
  len (kmRxBuf s) + Z.of_nat (length rest) <= KM_RX_BUF_LEN ->
  length (buf (kmRxBuf s)) = 20%nat ->
  exists s',
    rxRun (stuffed rest) s = (s', [])
    /\ kmRxStatus s' = KM_RX_ON
    /\ len (kmRxBuf s') = len (kmRxBuf s) + Z.of_nat (length rest)
    /\ length (buf (kmRxBuf s')) = 20%nat
    /\ take (Z.to_nat (len (kmRxBuf s'))) (buf (kmRxBuf s'))
       = take (Z.to_nat (len (kmRxBuf s))) (buf (kmRxBuf s)) ++ rest
    /\ kmRxBcc s' = Z.lxor (kmRxBcc s) (xor_all (stuffed rest)).
Proof.
  induction rest as [|d rest IH]; intros s Hs Hl0 Hl Hb.
  - exists s. simpl. rewrite Z.add_0_r, app_nil_r, Z.lxor_0_r.
    repeat split; auto.
  - unfold KM_RX_BUF_LEN in *. simpl length in Hl.
    (* the state after the payload byte [d] has been stored *)
    set (s2 := mkRx KM_RX_ON
                 (Z.lxor (kmRxBcc s) (xor_all (if d =? KM_DLE then [d; d] else [d])))
                 {| len := len (kmRxBuf s) + 1;
                    buf := <[Z.to_nat (len (kmRxBuf s)) := d]> (buf (kmRxBuf s)) |}).
    assert (Hstep : rxRun (if d =? KM_DLE then [d; d] else [d]) s = (s2, [])).
    { destruct (Z.eqb_spec d KM_DLE) as [->|Hd].
      - simpl. rewrite (step_on_dle s Hs).
        rewrite step_dle_dle; [| reflexivity | simpl; unfold KM_RX_BUF_LEN; lia].
        simpl. unfold s2. rewrite Z.lxor_assoc. reflexivity.
      - simpl. rewrite step_on_store; [| assumption | assumption | unfold KM_RX_BUF_LEN; lia].
        unfold s2. cbn [xor_all foldr]. now rewrite Z.lxor_0_r. }
    destruct (IH s2) as (s' & Hrun & Hst & Hlen & Hbuf & Htake & Hbcc);
      try (simpl; rewrite ?length_insert; auto; lia).
    exists s'. simpl stuffed. rewrite rxRun_app, Hstep, Hrun. simpl in *.
    repeat split; auto; try lia.
    + rewrite Htake.
      replace (Z.to_nat (len (kmRxBuf s) + 1)) with (S (Z.to_nat (len (kmRxBuf s)))) by lia.
      rewrite take_insert_next by lia. now rewrite <- app_assoc.
    + rewrite Hbcc, xor_all_app. now rewrite Z.lxor_assoc.
Qed.

(** The session handler and the decoder leave the receiver variables alone. *)
Lemma parseInfo_rx D data l w : rx (parseInfo D data l w) = rx w.
Proof.
  unfold parseInfo. destruct (decodeBlock D data (kmState w)) as [t msgs].
  now destruct (status_differs _ _).
Qed.

Lemma handleRxBlock_rx D data l c w : rx (handleRxBlock D data l c w) = rx w.
Proof.
  unfold handleRxBlock.
  destruct (KmRxBlockState w);
    repeat match goal with
           | |- context [if ?c then _ else _] => destruct c
           end; simpl; rewrite ?parseInfo_rx; reflexivity.
Qed.

(** ** C1: encode, then decode *)

(** C1 (as amended).  For every payload of 1 to 20 bytes that is a single
    byte or does not begin with STX, DLE or NAK, the bytes [sendTxBlock]
    writes, fed one at a time to the receiver in its idle state, make the
    receiver call [handleRxBlock] exactly once, with a block whose length is
    the payload's and whose bytes are the payload, and leave it idle. *)
Theorem C1_encode_decode_roundtrip (payload : list Z) (s : rx_state) :
  (1 <= length payload <= 20)%nat ->
  (length payload = 1%nat \/ is_protocol_byte (rd payload 0) = false) ->
  kmRxStatus s = KM_RX_IDLE ->
  length (buf (kmRxBuf s)) = 20%nat ->
  exists s' bcc,
    rxRun (sendTxBlock payload (Z.of_nat (length payload))) s
    = (s', [Call_handleRxBlock (buf (kmRxBuf s')) (len (kmRxBuf s')) bcc])
    /\ kmRxStatus s' = KM_RX_IDLE
    /\ len (kmRxBuf s') = Z.of_nat (length payload)
    /\ take (length payload) (buf (kmRxBuf s')) = payload.
Proof.
  intros Hlen Hshape Hs Hb.
  destruct payload as [|b0 rest]; [simpl in Hlen; lia|].
  change (rd (b0 :: rest) 0) with b0 in Hshape.
  destruct (is_protocol_byte b0) eqn:Hp.
  - (* a lone protocol byte *)
    destruct Hshape as [H1|?]; [|discriminate].
    destruct rest; [|discriminate]. simpl length.
    change (Z.of_nat 1) with 1. rewrite (sendTxBlock_protocol_byte b0 Hp).
    cbn [rxRun]. rewrite (step_idle_protocol b0 s Hs Hp). cbn [app].
    exists (mkRx KM_RX_IDLE b0 {| len := 1; buf := <[0%nat := b0]> (buf (kmRxBuf s)) |}), b0.
    split; [reflexivity|].
    cbn [kmRxStatus kmRxBuf mkRx buf len]. repeat split.
    rewrite take_insert_next by lia. reflexivity.
  - (* a block *)
    rewrite sendTxBlock_block by (auto; discriminate).
    assert (Hd : (b0 =? KM_DLE) = false).
    { unfold is_protocol_byte in Hp.
      destruct (b0 =? KM_STX), (b0 =? KM_DLE); simpl in Hp; congruence. }
    simpl stuffed. rewrite Hd. simpl app.
    cbn [xor_all foldr]. fold (xor_all (stuffed rest)).
    remember (Z.lxor (Z.lxor (Z.lxor b0 (xor_all (stuffed rest))) KM_DLE) KM_ETX)
      as bccByte eqn:HbccByte.
    cbn [rxRun]. rewrite (step_idle_data b0 s Hs Hp).
    set (s1 := mkRx KM_RX_ON b0 {| len := 1; buf := <[0%nat := b0]> (buf (kmRxBuf s)) |}).
    destruct (rxRun_stuffed rest s1) as (s2 & Hrun & Hst & Hl2 & Hb2 & Htake & Hbcc);
      try (simpl; rewrite ?length_insert; unfold KM_RX_BUF_LEN; simpl in Hlen; auto; lia).
    rewrite rxRun_app, Hrun. cbn [rxRun].
    rewrite (step_on_dle s2 Hst), step_dle_etx, step_bcc by reflexivity.
    cbn [kmRxBcc kmRxBuf mkRx].
    assert (Hzero : Z.lxor (Z.lxor (Z.lxor (kmRxBcc s2) KM_DLE) KM_ETX) bccByte = 0).
    { rewrite Hbcc, HbccByte. cbn [kmRxBcc s1 mkRx].
      apply Z.lxor_nilpotent. }
    rewrite Hzero. simpl Z.eqb. cbn iota. cbn [app].
    exists (mkRx KM_RX_IDLE 0 (kmRxBuf s2)), bccByte. split; [reflexivity|].
    unfold s1 in Hl2, Htake.
    cbn [kmRxStatus kmRxBuf mkRx len buf] in Hl2, Htake |- *.
    repeat split.
    + rewrite Hl2. simpl length. lia.
    + replace (length (b0 :: rest)) with (Z.to_nat (len (kmRxBuf s2)))
        by (rewrite Hl2; simpl length; lia).
      rewrite Htake.
      change (Z.to_nat 1) with (S 0). rewrite take_insert_next by lia.
      reflexivity.
Qed.

(** C1 (as stated) fails: the payload [02 05] has length 2, yet its
    encoding, fed to the idle receiver, is not handed over as one block
    equal to the payload (the leading STX is handed over on its own, and
    the rest is answered with NAK). *)
Lemma C1_counterexample_leading_STX :
  (1 <= length c1_bad_payload <= 20)%nat
  /\ kmRxStatus rx_idle = KM_RX_IDLE
  /\ snd (rxRun (sendTxBlock c1_bad_payload 2) rx_idle)
     = [Call_handleRxBlock (<[0%nat := KM_STX]> (replicate 20 0)) 1 KM_STX;
        Call_sendTxBlock KmCNAK 1]
  /\ ~ exists data l bcc,
         snd (rxRun (sendTxBlock c1_bad_payload (Z.of_nat (length c1_bad_payload))) rx_idle)
         = [Call_handleRxBlock data l bcc]
         /\ take (length c1_bad_payload) data = c1_bad_payload.
Proof.
  split; [simpl; lia|]. split; [reflexivity|]. split; [reflexivity|].
  intros (data & l & bcc & H & _). vm_compute in H. discriminate H.
Qed.

(** C1 witness: the payload [80 10 41], which contains a DLE. *)
Lemma C1_encode_decode_roundtrip_witness :
  exists s' bcc,
    rxRun (sendTxBlock [0x80; 0x10; 0x41] 3) rx_idle
    = (s', [Call_handleRxBlock (buf (kmRxBuf s')) (len (kmRxBuf s')) bcc])
    /\ kmRxStatus s' = KM_RX_IDLE
    /\ len (kmRxBuf s') = 3
    /\ take 3 (buf (kmRxBuf s')) = [0x80; 0x10; 0x41].
Proof.
  apply (C1_encode_decode_roundtrip [0x80; 0x10; 0x41] rx_idle).
  - simpl; lia.
  - right; reflexivity.
  - reflexivity.
  - reflexivity.
Defined.

(** ** C2: the receive buffer is bounded *)

(** C2.  Whatever bytes the receiver consumes from program start, the
    block length stays within 0..20 and every block handed to
    [handleRxBlock] has a length within 0..20 (and lies in the 20-byte
    array).  With 20 bytes buffered in the receiving state, one more byte
    other than DLE makes no call, puts the receiver in resync, and nothing
    is handed over for as long as no STX arrives; the STX that ends the
    resync restarts the block at length 1. *)
Theorem C2_rx_block_length_bounded :
  (forall bytes,
      0 <= len (kmRxBuf (fst (rxRun bytes rx_init))) <= 20
      /\ Forall call_within_buffer (snd (rxRun bytes rx_init)))
  /\ (forall s rxByte tail,
         kmRxStatus s = KM_RX_ON ->
         len (kmRxBuf s) = 20 ->
         rxByte <> KM_DLE ->
         Forall (fun b => b <> KM_STX) tail ->
         kmRxStatus (fst (rxByteStep rxByte s)) = KM_RX_RESYNC
         /\ snd (rxByteStep rxByte s) = []
         /\ kmRxStatus (fst (rxRun (rxByte :: tail) s)) = KM_RX_RESYNC
         /\ snd (rxRun (rxByte :: tail) s) = []
         /\ len (kmRxBuf (fst (rxRun (rxByte :: tail ++ [KM_STX]) s))) = 1).
Proof.
  split.
  - intros bytes. destruct (rxRun_wf bytes rx_init rx_init_wf) as [[Hl _] Hc].
    split; assumption.
  - intros s rxByte tail Hs Hl Hb Htail.
    pose proof (step_on_full rxByte s Hs Hb ltac:(unfold KM_RX_BUF_LEN; lia)) as Hstep.
    rewrite Hstep. cbn [fst snd kmRxStatus mkRx].
    do 2 (split; [reflexivity|]).
    set (s1 := mkRx KM_RX_RESYNC (Z.lxor (kmRxBcc s) rxByte) (kmRxBuf s)).
    destruct (rxRun_resync_silent tail s1 eq_refl Htail) as (Hst & Hbuf & Hcalls).
    change (rxByte :: tail ++ [KM_STX]) with ((rxByte :: tail) ++ [KM_STX]).
    rewrite rxRun_app. cbn [rxRun]. rewrite Hstep. fold s1.
    destruct (rxRun tail s1) as [s2 c2]. cbn [fst snd] in *.
    subst c2. repeat split; try assumption.
    unfold rxByteStep. rewrite Hst. reflexivity.
Qed.

(** C2 witness: a full buffer, then one more [41]; later [00 15] and STX. *)
Lemma C2_rx_block_length_bounded_witness :
  kmRxStatus rx_full = KM_RX_ON
  /\ len (kmRxBuf rx_full) = 20
  /\ kmRxStatus (fst (rxByteStep 0x41 rx_full)) = KM_RX_RESYNC
  /\ snd (rxByteStep 0x41 rx_full) = []
  /\ kmRxStatus (fst (rxRun (0x41 :: [0x00; 0x15]) rx_full)) = KM_RX_RESYNC
  /\ snd (rxRun (0x41 :: [0x00; 0x15]) rx_full) = []
  /\ len (kmRxBuf (fst (rxRun (0x41 :: [0x00; 0x15] ++ [KM_STX]) rx_full))) = 1.
Proof.
  split; [reflexivity|]. split; [reflexivity|].
  apply (proj2 C2_rx_block_length_bounded rx_full 0x41 [0x00; 0x15]).
  - reflexivity.
  - reflexivity.
  - discriminate.
  - repeat constructor; discriminate.
Defined.

(** ** C3: BCC verification *)

(** C3.  Let a block open in the idle state with the byte [b0] and let the
    receiver, without returning to idle in between, reach the BCC state
    after the bytes [b0 :: mid].  On the next byte the receiver returns to
    idle; it calls [handleRxBlock] with the buffered block exactly when the
    XOR of all bytes since the opening, the BCC byte included, is 0, and
    otherwise calls [sendTxBlock] with the single byte NAK, which puts
    exactly that byte on the wire and leaves session state, status store and
    publications as they were. *)
Theorem C3_block_delivered_iff_bcc_zero
    (DEBUG_ON : bool) (s : rx_state) (b0 : Z) (mid : list Z) (bccByte : Z) :
  kmRxStatus s = KM_RX_IDLE ->
  Forall (fun st => st <> KM_RX_IDLE) (rxStatuses (b0 :: mid) s) ->
  kmRxStatus (fst (rxRun (b0 :: mid) s)) = KM_RX_BCC ->
  let s1 := fst (rxRun (b0 :: mid) s) in
  let total := xor_all ((b0 :: mid) ++ [bccByte]) in
  kmRxStatus (fst (rxByteStep bccByte s1)) = KM_RX_IDLE
  /\ (total = 0 <->
      snd (rxByteStep bccByte s1)
      = [Call_handleRxBlock (buf (kmRxBuf s1)) (len (kmRxBuf s1)) bccByte])
  /\ (total <> 0 <->
      snd (rxByteStep bccByte s1) = [Call_sendTxBlock KmCNAK 1])
  /\ (forall w, rx w = s1 ->
        kmRxStatus (rx (cyclicKM271 DEBUG_ON (Some bccByte) w)) = KM_RX_IDLE)
  /\ (forall w, rx w = s1 -> total <> 0 ->
        let w' := cyclicKM271 DEBUG_ON (Some bccByte) w in
        Serial2_tx w' = Serial2_tx w ++ [KM_NAK]
        /\ KmRxBlockState w' = KmRxBlockState w
        /\ kmState w' = kmState w
        /\ mqtt w' = mqtt w).
Proof.
  intros Hs Hpath Hbcc s1 total.
  assert (Htot : Z.lxor (kmRxBcc s1) bccByte = total).
  { unfold total, s1. rewrite xor_all_app, (rxRun_bcc_of_block b0 mid s Hs Hpath).
    cbn [xor_all foldr]. now rewrite (Z.lxor_0_r bccByte). }
  pose proof (step_bcc bccByte s1 Hbcc) as Hstep. rewrite Htot in Hstep.
  rewrite Hstep. cbn [fst snd kmRxStatus mkRx].
  split; [reflexivity|].
  destruct (Z.eqb_spec total 0) as [H0|H0].
  - split; [tauto|]. split; [split; [tauto | discriminate]|].
    split.
    + intros w Hw. unfold cyclicKM271. rewrite Hw, Hstep.
      destruct (Z.eqb_spec total 0); [|contradiction].
      cbn [fold_left execCall set_km271LogModeActive rx].
      now rewrite handleRxBlock_rx.
    + intros w _ Hne. contradiction.
  - split; [split; [tauto | discriminate]|]. split; [tauto|].
    split.
    + intros w Hw. unfold cyclicKM271. rewrite Hw, Hstep.
      destruct (Z.eqb_spec total 0); [contradiction|]. reflexivity.
    + intros w Hw _. unfold cyclicKM271. rewrite Hw, Hstep.
      destruct (Z.eqb_spec total 0); [contradiction|].
      repeat split.
Qed.

(** C3 witness: the frame [05 10 03] followed by the matching BCC [16]. *)
Lemma C3_block_delivered_iff_bcc_zero_witness :
  kmRxStatus (fst (rxByteStep 0x16 rx_at_bcc)) = KM_RX_IDLE
  /\ (xor_all ([0x05; 0x10; 0x03] ++ [0x16]) = 0 <->
      snd (rxByteStep 0x16 rx_at_bcc)
      = [Call_handleRxBlock (buf (kmRxBuf rx_at_bcc)) (len (kmRxBuf rx_at_bcc)) 0x16]).
Proof.
  pose proof (C3_block_delivered_iff_bcc_zero false rx_idle 0x05 [0x10; 0x03] 0x16
                eq_refl
                ltac:(repeat constructor; discriminate)
                eq_refl) as H.
  cbv zeta in H. destruct H as (H1 & H2 & _).
  split; [exact H1 | exact H2].
Defined.

(** ** C4: the signed temperature decoder *)

(** C4 (as stated) fails at the raw byte [0x80]: the decoder yields +128,
    not -128, because only bytes strictly above 128 are taken as negative. *)
Lemma C4_counterexample_raw_0x80 :
  ~ (decodeNegTemp 0x80 == -128)%Q /\ (decodeNegTemp 0x80 == 128)%Q.
Proof. split; [intros H; discriminate H | reflexivity]. Qed.

(** C4 (as amended).  [decodeNegTemp] maps the raw byte 0x80 to 128,
    0x81 to -127, 0x7F to 127 and 0x00 to 0; for every raw byte greater
    than 128 it returns -(256 - raw), and for every other raw byte it
    returns raw. *)
Theorem C4_decodeNegTemp_values :
  (decodeNegTemp 0x80 == 128)%Q
  /\ (decodeNegTemp 0x81 == -127)%Q
  /\ (decodeNegTemp 0x7F == 127)%Q
  /\ (decodeNegTemp 0x00 == 0)%Q
  /\ forall raw : Z,
       0 <= raw <= 255 ->
       (raw > 128 -> (decodeNegTemp raw == - inject_Z (256 - raw))%Q)
       /\ (raw <= 128 -> (decodeNegTemp raw == inject_Z raw)%Q).
Proof.
  do 4 (split; [reflexivity|]).
  intros raw _. unfold decodeNegTemp, float_of_int. split; intros H.
  - destruct (Z.gtb_spec raw 128); [|lia].
    unfold Qeq. simpl. lia.
  - destruct (Z.gtb_spec raw 128); [lia|]. reflexivity.
Qed.

(** C4 witness: the raw bytes 0xEC (-20) and 0x0A (10). *)
Lemma C4_decodeNegTemp_values_witness :
  (decodeNegTemp 0xEC == - inject_Z (256 - 0xEC))%Q
  /\ (decodeNegTemp 0x0A == inject_Z 0x0A)%Q.
Proof.
  destruct C4_decodeNegTemp_values as (_ & _ & _ & _ & H).
  split.
  - apply (H 0xEC); lia.
  - apply (H 0x0A); lia.
Defined.

(** ** C5: signed parameters of the frost cutoff and outdoor hold commands *)

(** C5 (the code departs from the claim).  A caller's negative parameter
    between -20 and -1 reaches [km271sendCmd] as the [uint8_t] value
    [256 + p], which fails the test [cmdPara <= 10]: both the frost cutoff
    and the outdoor hold command publish the rejection and leave the send
    slot as it was. *)
Theorem C5_negative_parameter_rejected (p : Z) (w : world) :
  -20 <= p < 0 ->
  km271sendCmd KM271_SENDCMD_FROST_AB (to_uint8 p) w
  = rejectCmd "setvalue: frost_ab - invald value" w
  /\ km271sendCmd KM271_SENDCMD_AUSSENHALT (to_uint8 p) w
     = rejectCmd "setvalue: aussenhalt_ab - invald value" w
  /\ send_request (km271sendCmd KM271_SENDCMD_FROST_AB (to_uint8 p) w) = send_request w
  /\ send_buf (km271sendCmd KM271_SENDCMD_FROST_AB (to_uint8 p) w) = send_buf w
  /\ send_request (km271sendCmd KM271_SENDCMD_AUSSENHALT (to_uint8 p) w) = send_request w
  /\ send_buf (km271sendCmd KM271_SENDCMD_AUSSENHALT (to_uint8 p) w) = send_buf w.
Proof.
  intros Hp.
  assert (Hu : to_uint8 p = 256 + p).
  { unfold to_uint8. symmetry. apply Z.mod_unique with (q := -1); lia. }
  assert (Hc : (to_uint8 p >=? -20) && (to_uint8 p <=? 10) = false).
  { rewrite Hu. destruct (Z.leb_spec (256 + p) 10); [lia|]. apply andb_false_r. }
  unfold km271sendCmd. rewrite Hc. repeat split.
Qed.

(** C5 witness: the parameter -20 on the freshly started driver. *)
Lemma C5_negative_parameter_rejected_witness :
  to_uint8 (-20) = 236
  /\ send_request (km271sendCmd KM271_SENDCMD_FROST_AB (to_uint8 (-20)) world_init) = false
  /\ mqtt (km271sendCmd KM271_SENDCMD_FROST_AB (to_uint8 (-20)) world_init)
     = [pub "/message" (PText "setvalue: frost_ab - invald value")].
Proof.
  split; [reflexivity|].
  destruct (C5_negative_parameter_rejected (-20) world_init ltac:(lia))
    as (H1 & _ & H3 & _).
  split.
  - rewrite H3. reflexivity.
  - rewrite H1. reflexivity.
Defined.

(** ** C6: the log-mode command *)

(** C6 (as stated) fails: in the start state, on a control DLE, the bytes
    put on the wire end in the BCC [FD], not [7D]. *)
Lemma C6_counterexample_bcc_7D :
  KmRxBlockState world_init = KM_TSK_START
  /\ Serial2_tx (handleRxBlock false [KM_DLE] 1 KM_DLE world_init)
     <> [0xEE; 0x00; 0x00; 0x10; 0x03; 0x7D]
  /\ Serial2_tx (handleRxBlock false [KM_DLE] 1 KM_DLE world_init)
     = [0xEE; 0x00; 0x00; 0x10; 0x03; 0xFD].
Proof. split; [reflexivity|]. split; [discriminate | reflexivity]. Qed.

(** C6 (as amended).  In the start state, on a control DLE, the session
    manager sends the log-mode command [EE 00 00], which goes on the wire
    as [EE 00 00 10 03 FD], and moves to the log-command-issued state;
    this is what a DLE received by the idle receiver leads to. *)
Theorem C6_start_DLE_sends_log_mode (DEBUG_ON : bool) (w : world) :
  KmRxBlockState w = KM_TSK_START ->
  (forall data l bcc,
      rd data 0 = KM_DLE ->
      let w' := handleRxBlock DEBUG_ON data l bcc w in
      Serial2_tx w' = Serial2_tx w ++ [0xEE; 0x00; 0x00; 0x10; 0x03; 0xFD]
      /\ KmRxBlockState w' = KM_TSK_LG_CMD)
  /\ (kmRxStatus (rx w) = KM_RX_IDLE ->
      length (buf (kmRxBuf (rx w))) = 20%nat ->
      let w' := cyclicKM271 DEBUG_ON (Some KM_DLE) w in
      Serial2_tx w' = Serial2_tx w ++ [0xEE; 0x00; 0x00; 0x10; 0x03; 0xFD]
      /\ KmRxBlockState w' = KM_TSK_LG_CMD
      /\ kmRxStatus (rx w') = KM_RX_IDLE).
Proof.
  intros Hst.
  assert (Hh : forall data l bcc w0,
             KmRxBlockState w0 = KM_TSK_START -> rd data 0 = KM_DLE ->
             handleRxBlock DEBUG_ON data l bcc w0
             = set_KmRxBlockState KM_TSK_LG_CMD
                 (Serial2_write [0xEE; 0x00; 0x00; 0x10; 0x03; 0xFD] w0)).
  { intros data l bcc w0 H0 Hd. unfold handleRxBlock. rewrite H0, Hd. reflexivity. }
  split.
  - intros data l bcc Hd w'. unfold w'. rewrite Hh by assumption. split; reflexivity.
  - intros Hrx Hbuf w'. unfold w', cyclicKM271.
    rewrite (step_idle_protocol KM_DLE (rx w) Hrx eq_refl).
    cbn [fold_left execCall].
    rewrite Hh.
    + repeat split.
    + exact Hst.
    + unfold rd. destruct (buf (kmRxBuf (rx w))); [discriminate Hbuf | reflexivity].
Qed.

(** C6 witness: the freshly started driver with the receiver idle. *)
Lemma C6_start_DLE_sends_log_mode_witness :
  Serial2_tx (handleRxBlock false [KM_DLE] 1 KM_DLE world_init)
  = [0xEE; 0x00; 0x00; 0x10; 0x03; 0xFD]
  /\ KmRxBlockState (handleRxBlock false [KM_DLE] 1 KM_DLE world_init) = KM_TSK_LG_CMD.
Proof.
  exact (proj1 (C6_start_DLE_sends_log_mode false world_init eq_refl)
               [KM_DLE] 1 KM_DLE eq_refl).
Defined.

(** ** Status store: comparison and write-back *)

Lemma all_u8_fields_complete m : In m all_u8_fields.
Proof. destruct m; simpl; tauto. Qed.

Lemma all_f32_fields_complete m : In m all_f32_fields.
Proof. destruct m; simpl; tauto. Qed.

Lemma status_differs_refl a : status_differs a a = false.
Proof.
  unfold status_differs.
  assert (H1 : forallb (fun m => u8 a m =? u8 a m) all_u8_fields = true).
  { apply forallb_forall. intros m _. apply Z.eqb_refl. }
  assert (H2 : forallb (fun m => Qeq_bool (f32 a m) (f32 a m)) all_f32_fields = true).
  { apply forallb_forall. intros m _. apply Qeq_bool_iff. reflexivity. }
  now rewrite H1, H2.
Qed.

(** Two structures that do not differ agree on every member. *)
Lemma status_same_members a b :
  status_differs a b = false ->
  (forall m, u8 a m = u8 b m) /\ (forall m, (f32 a m == f32 b m)%Q).
Proof.
  unfold status_differs. intros H.
  apply negb_false_iff, andb_true_iff in H. destruct H as [H1 H2].
  rewrite forallb_forall in H1, H2. split; intros m.
  - apply Z.eqb_eq, H1, all_u8_fields_complete.
  - apply Qeq_bool_iff, H2, all_f32_fields_complete.
Qed.

Lemma set_u8_same m v s : u8 (set_u8 m v s) m = v.
Proof. unfold set_u8. simpl. now destruct (decide (m = m)). Qed.

Lemma set_u8_other m m' v s : m' <> m -> u8 (set_u8 m v s) m' = u8 s m'.
Proof. intros H. unfold set_u8. simpl. now destruct (decide (m' = m)). Qed.

Lemma set_f32_other m m' v s : m' <> m -> f32 (set_f32 m v s) m' = f32 s m'.
Proof. intros H. unfold set_f32. simpl. now destruct (decide (m' = m)). Qed.

(** What [parseInfo] leaves in [kmState] and on the publication channel. *)
Lemma parseInfo_effect D data l w :
  let r := decodeBlock D data (kmState w) in
  kmState (parseInfo D data l w)
  = (if status_differs (fst r) (kmState w) then fst r else kmState w)
  /\ mqtt (parseInfo D data l w) = mqtt w ++ snd r.
Proof.
  unfold parseInfo. destruct (decodeBlock D data (kmState w)) as [t msgs].
  cbn [fst snd mqttPublish kmState].
  destruct (status_differs t (kmState w)); split; reflexivity.
Qed.

(** ** C7: register 0x8425, the second DHW operating-state bitfield *)

(** C7 (the code departs from the claim).  For a block with register
    identifier 0x8425, [parseInfo] leaves the data byte in
    [HotWaterOperatingStates_2] and publishes the eight DHW_BW2 topics in
    order; the topics manual to priority carry bits 1 to 7 of the data byte,
    but DHW_BW2_load carries bit 0 of [HeatingCircuitOperatingStates_1] as
    it stood before the block, not bit 0 of the data byte. *)
Theorem C7_DHW_BW2_publications (DEBUG_ON : bool) (data : list Z) (l : Z) (w : world) :
  rd data 0 * 256 + rd data 1 = 0x8425 ->
  let w' := parseInfo DEBUG_ON data l w in
  u8 (kmState w') HotWaterOperatingStates_2 = rd data 2
  /\ mqtt w' = mqtt w ++
       [ pub "/status/DHW_BW2_load"
             (PInt (bitRead (u8 (kmState w) HeatingCircuitOperatingStates_1) 0));
         pub "/status/DHW_BW2_manual" (PInt (bitRead (rd data 2) 1));
         pub "/status/DHW_BW2_reload" (PInt (bitRead (rd data 2) 2));
         pub "/status/DHW_BW2_off_time_optimization" (PInt (bitRead (rd data 2) 3));
         pub "/status/DHW_BW2_on_time_optimization" (PInt (bitRead (rd data 2) 4));
         pub "/status/DHW_BW2_day" (PInt (bitRead (rd data 2) 5));
         pub "/status/DHW_BW2_hot" (PInt (bitRead (rd data 2) 6));
         pub "/status/DHW_BW2_priority" (PInt (bitRead (rd data 2) 7)) ].
Proof.
  intros Hreg w'. unfold w'.
  destruct (parseInfo_effect DEBUG_ON data l w) as [Hk Hm].
  assert (Hd : decodeBlock DEBUG_ON data (kmState w)
               = (let t := set_u8 HotWaterOperatingStates_2 (rd data 2) (kmState w) in
                  (t,
                   [ pub "/status/DHW_BW2_load"
                         (PInt (bitRead (u8 t HeatingCircuitOperatingStates_1) 0));
                     pub "/status/DHW_BW2_manual"
                         (PInt (bitRead (u8 t HotWaterOperatingStates_2) 1));
                     pub "/status/DHW_BW2_reload"
                         (PInt (bitRead (u8 t HotWaterOperatingStates_2) 2));
                     pub "/status/DHW_BW2_off_time_optimization"
                         (PInt (bitRead (u8 t HotWaterOperatingStates_2) 3));
                     pub "/status/DHW_BW2_on_time_optimization"
                         (PInt (bitRead (u8 t HotWaterOperatingStates_2) 4));
                     pub "/status/DHW_BW2_day"
                         (PInt (bitRead (u8 t HotWaterOperatingStates_2) 5));
                     pub "/status/DHW_BW2_hot"
                         (PInt (bitRead (u8 t HotWaterOperatingStates_2) 6));
                     pub "/status/DHW_BW2_priority"
                         (PInt (bitRead (u8 t HotWaterOperatingStates_2) 7)) ]))).
  { unfold decodeBlock. rewrite Hreg. reflexivity. }
  rewrite Hd in Hk, Hm. cbv zeta in Hk, Hm. cbn [fst snd] in Hk, Hm.
  rewrite !set_u8_same, set_u8_other in Hm by discriminate.
  split; [|exact Hm].
  rewrite Hk.
  destruct (status_differs _ _) eqn:Hdiff.
  - apply set_u8_same.
  - apply status_same_members in Hdiff. destruct Hdiff as [Hu _].
    rewrite <- Hu. apply set_u8_same.
Qed.

(** C7 witness, at the failing input: on the freshly started driver (where
    [HeatingCircuitOperatingStates_1] is 0) the block [84 25 01], whose
    data byte has bit 0 set, is published with DHW_BW2_load = 0. *)
Lemma C7_DHW_BW2_publications_witness :
  bitRead (rd c7_block 2) 0 = 1
  /\ u8 (kmState (parseInfo false c7_block 3 world_init)) HotWaterOperatingStates_2 = 0x01
  /\ nth_error (mqtt (parseInfo false c7_block 3 world_init)) 0
     = Some (pub "/status/DHW_BW2_load" (PInt 0)).
Proof.
  split; [reflexivity|].
  destruct (C7_DHW_BW2_publications false c7_block 3 world_init eq_refl) as [H1 H2].
  split.
  - rewrite H1. reflexivity.
  - rewrite H2. reflexivity.
Defined.

(** ** C8: parameter validation in the command builder *)

(** C8 (the code departs from the claim).  The parameter is the integer
    the caller passes, which [km271sendCmd] receives as a [uint8_t].  The
    HK1 design temperature command rejects 29 and 91 and accepts 30 and 90.
    For every command, a parameter outside the command's range publishes
    the rejection and leaves the pending flag and the send buffer as they
    were, and a parameter inside the range that is not negative sets the
    pending flag, fills the eight-byte send buffer and publishes the
    confirmation.  A negative parameter inside the range, however -- the
    range reaches below zero for frost cutoff and outdoor hold only, from
    -20 to -1 -- is rejected like one outside it: the pending flag is not
    set and the rejection is published. *)
Theorem C8_parameter_check_by_caller_value :
  (forall w p,
      (p = 29 \/ p = 91 ->
       km271sendCmd KM271_SENDCMD_HK1_AUSLEGUNG (to_uint8 p) w
       = rejectCmd "setvalue: hk1_auslegung - invald value" w)
      /\ (p = 30 \/ p = 90 ->
          km271sendCmd KM271_SENDCMD_HK1_AUSLEGUNG (to_uint8 p) w
          = armCmd [0x07; 0x0E; 0x65; 0x65; 0x65; 0x65; p; 0x65]
                   "setvalue: hk1_auslegung - received" w))
  /\ (forall c p w,
         -128 <= p <= 255 ->
         let w' := km271sendCmd c (to_uint8 p) w in
         (param_in_range c p = false ->
          send_request w' = send_request w
          /\ send_buf w' = send_buf w
          /\ mqtt w' = mqtt w ++ [pub "/message" (PText (rejection_text c))])
         /\ (param_in_range c p = true -> 0 <= p ->
             send_request w' = true
             /\ length (send_buf w') = 8%nat
             /\ mqtt w' = mqtt w ++ [pub "/message" (PText (confirmation_text c))])
         /\ (param_in_range c p = true -> p < 0 ->
             (c = KM271_SENDCMD_FROST_AB \/ c = KM271_SENDCMD_AUSSENHALT)
             /\ -20 <= p
             /\ send_request w' = send_request w
             /\ send_buf w' = send_buf w
             /\ mqtt w' = mqtt w ++ [pub "/message" (PText (rejection_text c))])).
Proof.
  split.
  - intros w p. split; intros [-> | ->]; reflexivity.
  - intros c p w Hp w'. unfold w'.
    destruct (Z.ltb_spec p 0) as [Hneg|Hpos].
    + (* a negative value arrives as 256 + p, above every upper bound *)
      assert (Hu : to_uint8 p = 256 + p).
      { unfold to_uint8. symmetry. apply Z.mod_unique with (q := -1); lia. }
      rewrite Hu.
      assert (Hrej : send_request (km271sendCmd c (256 + p) w) = send_request w
                     /\ send_buf (km271sendCmd c (256 + p) w) = send_buf w
                     /\ mqtt (km271sendCmd c (256 + p) w)
                        = mqtt w ++ [pub "/message" (PText (rejection_text c))]).
      { unfold km271sendCmd.
        destruct c;
          match goal with
          | |- context [(?a && (256 + p <=? ?hi))%bool] =>
              destruct (Z.leb_spec (256 + p) hi) as [Hle|_];
              [lia | rewrite andb_false_r]
          end; repeat split. }
      split; [intros _; exact Hrej|]. split; [intros _ H0; lia|].
      intros Hin _. split; [|split; [|exact Hrej]].
      * unfold param_in_range in Hin.
        destruct c; cbn [spec_param_range fst snd] in Hin;
          apply andb_true_iff in Hin; destruct Hin as [Hlo _];
          apply Z.leb_le in Hlo; auto; lia.
      * unfold param_in_range in Hin.
        destruct c; cbn [spec_param_range fst snd] in Hin;
          apply andb_true_iff in Hin; destruct Hin as [Hlo _];
          apply Z.leb_le in Hlo; lia.
    + (* a non-negative value arrives as it is *)
      assert (Hu : to_uint8 p = p) by (unfold to_uint8; apply Z.mod_small; lia).
      rewrite Hu. split; [|split; [|intros _ H0; lia]].
      * unfold km271sendCmd, param_in_range.
        destruct c; cbn [spec_param_range fst snd];
          rewrite <- (Z.geb_leb p);
          match goal with
          | |- context [(?a && ?b)%bool] => destruct (a && b)%bool
          end; intros H; try discriminate H; repeat split.
      * unfold km271sendCmd, param_in_range.
        destruct c; cbn [spec_param_range fst snd];
          rewrite <- (Z.geb_leb p);
          match goal with
          | |- context [(?a && ?b)%bool] => destruct (a && b)%bool
          end; intros H _; try discriminate H; repeat split.
Qed.

(** C8 witness, at the failing input: frost cutoff with -5, inside
    -20..+10, arrives as the byte 251 and is rejected on the freshly
    started driver; DHW setpoint with 61 is rejected and with 55 accepted. *)
Lemma C8_parameter_check_by_caller_value_witness :
  param_in_range KM271_SENDCMD_FROST_AB (-5) = true
  /\ to_uint8 (-5) = 251
  /\ send_request (km271sendCmd KM271_SENDCMD_FROST_AB (to_uint8 (-5)) world_init) = false
  /\ mqtt (km271sendCmd KM271_SENDCMD_FROST_AB (to_uint8 (-5)) world_init)
     = [pub "/message" (PText "setvalue: frost_ab - invald value")]
  /\ send_request (km271sendCmd KM271_SENDCMD_WW_SOLL (to_uint8 61) world_init) = false
  /\ send_request (km271sendCmd KM271_SENDCMD_WW_SOLL (to_uint8 55) world_init) = true.
Proof.
  split; [reflexivity|]. split; [reflexivity|].
  destruct (proj2 C8_parameter_check_by_caller_value KM271_SENDCMD_FROST_AB (-5) world_init
              ltac:(lia)) as (_ & _ & Hneg).
  destruct (Hneg eq_refl ltac:(lia)) as (_ & _ & H1 & _ & H3).
  destruct (proj2 C8_parameter_check_by_caller_value KM271_SENDCMD_WW_SOLL 61 world_init
              ltac:(lia)) as (Hrej & _ & _).
  destruct (Hrej eq_refl) as (H4 & _ & _).
  destruct (proj2 C8_parameter_check_by_caller_value KM271_SENDCMD_WW_SOLL 55 world_init
              ltac:(lia)) as (_ & Hacc & _).
  destruct (Hacc eq_refl ltac:(lia)) as (H5 & _ & _).
  split; [rewrite H1; reflexivity|].
  split; [rewrite H3; reflexivity|].
  split; [rewrite H4; reflexivity | exact H5].
Defined.

(** ** C9: what a block changes in the status store *)

(** Case analysis along the [switch] of [decodeBlock]. *)
Ltac switch_cases reg tac :=
  repeat match goal with
         | |- context [if reg =? ?c then _ else _] =>
             destruct (Z.eqb_spec reg c) as [?Hcase|_]; [cbn [fst]; tac|]
         end.

Lemma decodeBlock_u8_frame D data t m :
  u8_register m <> block_register data ->
  u8 (fst (decodeBlock D data t)) m = u8 t m.
Proof.
  unfold block_register, decodeBlock. cbv zeta.
  set (reg := rd data 0 * 256 + rd data 1). intros Hm.
  switch_cases reg
    ltac:(first [ reflexivity
                | apply set_u8_other; intros ->; apply Hm; symmetry; assumption ]).
  reflexivity.
Qed.

Lemma decodeBlock_f32_frame D data t m :
  f32_register m <> block_register data ->
  f32 (fst (decodeBlock D data t)) m = f32 t m.
Proof.
  unfold block_register, decodeBlock. cbv zeta.
  set (reg := rd data 0 * 256 + rd data 1). intros Hm.
  switch_cases reg
    ltac:(first [ reflexivity
                | apply set_f32_other; intros ->; apply Hm; symmetry; assumption ]).
  reflexivity.
Qed.

(** A register that keys no member leaves the scratch copy as it is. *)
Lemma decodeBlock_no_member D data t :
  (forall m, u8_register m <> block_register data) ->
  (forall m, f32_register m <> block_register data) ->
  fst (decodeBlock D data t) = t.
Proof.
  unfold block_register, decodeBlock. cbv zeta.
  set (reg := rd data 0 * 256 + rd data 1). intros Hu Hf.
  switch_cases reg
    ltac:(first [ reflexivity
                | match goal with
                  | |- context [set_u8 ?m _ _] =>
                      exfalso; apply (Hu m); symmetry; assumption
                  | |- context [set_f32 ?m _ _] =>
                      exfalso; apply (Hf m); symmetry; assumption
                  end ]).
  reflexivity.
Qed.

(** C9.  A block passed to [parseInfo] changes at most the members of the
    status store assigned under the block's register identifier; every
    other member keeps its value.  A register identifier that keys no
    member (an unknown one, a configuration register, the keep-alive
    0x0400) leaves the store exactly as it was.  The store is overwritten
    with the scratch copy only when the two differ: it ends up as the
    scratch copy in that case and is the untouched original otherwise. *)
Theorem C9_parseInfo_frame (DEBUG_ON : bool) (data : list Z) (l : Z) (w : world) :
  let w' := parseInfo DEBUG_ON data l w in
  let scratch := fst (decodeBlock DEBUG_ON data (kmState w)) in
  (forall m, u8_register m <> block_register data ->
             u8 (kmState w') m = u8 (kmState w) m)
  /\ (forall m, f32_register m <> block_register data ->
                f32 (kmState w') m = f32 (kmState w) m)
  /\ ((forall m, u8_register m <> block_register data) ->
      (forall m, f32_register m <> block_register data) ->
      kmState w' = kmState w)
  /\ (block_register data = 0x0400 -> kmState w' = kmState w)
  /\ (status_differs scratch (kmState w) = false -> kmState w' = kmState w)
  /\ (status_differs scratch (kmState w) = true -> kmState w' = scratch).
Proof.
  intros w' scratch. unfold w', scratch.
  destruct (parseInfo_effect DEBUG_ON data l w) as [Hk _]. cbv zeta in Hk.
  assert (Hnone : (forall m, u8_register m <> block_register data) ->
                  (forall m, f32_register m <> block_register data) ->
                  kmState (parseInfo DEBUG_ON data l w) = kmState w).
  { intros Hu Hf. rewrite Hk, (decodeBlock_no_member _ _ _ Hu Hf).
    now rewrite status_differs_refl. }
  repeat split.
  - intros m Hm. rewrite Hk. destruct (status_differs _ _); [|reflexivity].
    now apply decodeBlock_u8_frame.
  - intros m Hm. rewrite Hk. destruct (status_differs _ _); [|reflexivity].
    now apply decodeBlock_f32_frame.
  - exact Hnone.
  - intros H0. apply Hnone; intros m; rewrite H0; destruct m; discriminate.
  - intros Hd. now rewrite Hk, Hd.
  - intros Hd. now rewrite Hk, Hd.
Qed.

(** C9 witness: the block [80 08 64] leaves the room temperature and the
    mixer value alone, and a keep-alive block leaves the store alone. *)
Lemma C9_parseInfo_frame_witness :
  u8 (kmState (parseInfo false c9_block 3 world_init)) MixingValue
  = u8 (kmState world_init) MixingValue
  /\ f32 (kmState (parseInfo false c9_block 3 world_init)) RoomActualTemp
     = f32 (kmState world_init) RoomActualTemp
  /\ kmState (parseInfo false [0x04; 0x00; 0x07; 0x01] 4 world_init) = kmState world_init.
Proof.
  destruct (C9_parseInfo_frame false c9_block 3 world_init) as (Hu & Hf & _).
  destruct (C9_parseInfo_frame false [0x04; 0x00; 0x07; 0x01] 4 world_init)
    as (_ & _ & _ & Hk & _).
  split; [apply Hu; discriminate|].
  split; [apply Hf; discriminate|].
  apply Hk. reflexivity.
Defined.

(** ** C10: reading the status before initialisation *)

Lemma km271sendCmd_accessMutex c p w :
  accessMutex (km271sendCmd c p w) = accessMutex w.
Proof.
  unfold km271sendCmd.
  destruct c;
    match goal with
    | |- context [if ?c then _ else _] => destruct c
    end; reflexivity.
Qed.

(** C10.  While [accessMutex] is null, [km271GetStatus] returns without
    copying: the caller's structure is left as it was.  The mutex is null
    at program start and the command builder does not touch it; it is
    [km271ProtInit] that stores the created mutex, after which the call
    copies [kmState]. *)
Theorem C10_GetStatus_before_init (dest : s_km271_status) (w : world) :
  accessMutex w = NULL ->
  km271GetStatus dest w = dest
  /\ accessMutex world_init = NULL
  /\ (forall c p, accessMutex (km271sendCmd c p w) = NULL)
  /\ (forall id, km271GetStatus dest (fst (km271ProtInit (Handle id) w)) = kmState w).
Proof.
  intros Hnull. repeat split.
  - unfold km271GetStatus. now rewrite Hnull.
  - intros c p. now rewrite km271sendCmd_accessMutex.
Qed.

(** C10 witness: a call on the freshly started driver. *)
Lemma C10_GetStatus_before_init_witness :
  accessMutex world_init = NULL
  /\ km271GetStatus c10_dest world_init = c10_dest
  /\ u8 (km271GetStatus c10_dest world_init) PumpPower = 77.
Proof.
  split; [reflexivity|].
  destruct (C10_GetStatus_before_init c10_dest world_init eq_refl) as [H _].
  split; [exact H | rewrite H; reflexivity].
Defined.

(** * Further properties of the driver *)

(** ** The encoder's output *)





(** ** Frames at the receiver *)

(** The receiver on the frame of a payload closed by an arbitrary last
    byte [c], from the idle state. *)
Lemma rxRun_frame payload c s :
  (1 <= length payload <= 20)%nat ->
  is_protocol_byte (rd payload 0) = false ->
  kmRxStatus s = KM_RX_IDLE ->
  length (buf (kmRxBuf s)) = 20%nat ->
  exists b,
    length b = 20%nat
    /\ take (length payload) b = payload
    /\ rxRun (stuffed payload ++ [KM_DLE; KM_ETX; c]) s
       = (mkRx KM_RX_IDLE (Z.lxor (frame_bcc payload) c)
            {| len := Z.of_nat (length payload); buf := b |},
          if Z.lxor (frame_bcc payload) c =? 0
          then [Call_handleRxBlock b (Z.of_nat (length payload)) c]
          else [Call_sendTxBlock KmCNAK 1]).
Proof.
  intros Hlen Hp Hs Hb.
  destruct payload as [|b0 rest]; [simpl in Hlen; lia|].
  change (rd (b0 :: rest) 0) with b0 in Hp.
  assert (Hd : (b0 =? KM_DLE) = false).
  { unfold is_protocol_byte in Hp.
    destruct (b0 =? KM_STX), (b0 =? KM_DLE); simpl in Hp; congruence. }
  unfold frame_bcc. cbn [stuffed]. rewrite Hd. cbn [app xor_all foldr].
  fold (xor_all (stuffed rest)).
  cbn [rxRun]. rewrite (step_idle_data b0 s Hs Hp).
  set (s1 := mkRx KM_RX_ON b0 {| len := 1; buf := <[0%nat := b0]> (buf (kmRxBuf s)) |}).
  destruct (rxRun_stuffed rest s1) as (s2 & Hrun & Hst & Hl2 & Hb2 & Htake & Hbcc);
    try (simpl; rewrite ?length_insert; unfold KM_RX_BUF_LEN; simpl in Hlen; auto; lia).
  rewrite rxRun_app, Hrun. cbn [rxRun].
  rewrite (step_on_dle s2 Hst), step_dle_etx, step_bcc by reflexivity.
  cbn [kmRxBcc kmRxBuf mkRx app].
  unfold s1 in Hl2, Htake, Hbcc.
  cbn [kmRxStatus kmRxBuf kmRxBcc mkRx len buf] in Hl2, Htake, Hbcc.
  rewrite Hbcc.
  assert (Hl3 : len (kmRxBuf s2) = Z.of_nat (length (b0 :: rest))).
  { rewrite Hl2. simpl length. lia. }
  exists (buf (kmRxBuf s2)). split; [exact Hb2|]. split.
  - replace (length (b0 :: rest)) with (Z.to_nat (len (kmRxBuf s2))) by lia.
    rewrite Htake. change (Z.to_nat 1) with (S 0).
    rewrite take_insert_next by lia. reflexivity.
  - rewrite <- Hl3, app_nil_r. destruct (kmRxBuf s2) as [l2 b2]. reflexivity.
Qed.

(** The receiver on what [sendTxBlock] writes for one payload. *)
Lemma rxRun_encode payload s :
  payload_ok payload ->
  kmRxStatus s = KM_RX_IDLE ->
  length (buf (kmRxBuf s)) = 20%nat ->
  exists s' data bcc,
    rxRun (encode payload) s
    = (s', [Call_handleRxBlock data (Z.of_nat (length payload)) bcc])
    /\ kmRxStatus s' = KM_RX_IDLE
    /\ buf (kmRxBuf s') = data
    /\ length data = 20%nat
    /\ take (length payload) data = payload.
Proof.
  intros [Hlen Hshape] Hs Hb.
  destruct (is_protocol_byte (rd payload 0)) eqn:Hp.
  - destruct Hshape as [H1|?]; [|discriminate].
    destruct payload as [|b0 [|? ?]]; try discriminate.
    change (rd [b0] 0) with b0 in Hp. unfold encode. simpl length.
    change (Z.of_nat 1) with 1. rewrite (sendTxBlock_protocol_byte b0 Hp).
    cbn [rxRun]. rewrite (step_idle_protocol b0 s Hs Hp). cbn [app].
    eexists _, _, b0. split; [reflexivity|].
    cbn [kmRxStatus kmRxBuf mkRx buf]. rewrite length_insert.
    repeat split; auto.
    change 1%nat with (S 0). rewrite take_insert_next by lia. reflexivity.
  - destruct (rxRun_frame payload (frame_bcc payload) s Hlen Hp Hs Hb)
      as (b & Hbl & Htk & Hrun).
    rewrite Z.lxor_nilpotent in Hrun. cbn [Z.eqb] in Hrun.
    unfold encode. rewrite sendTxBlock_block; [| | right; exact Hp].
    + fold (frame_bcc payload). rewrite Hrun.
      eexists _, b, _. split; [reflexivity|]. repeat split; auto.
    + intros ->. simpl in Hlen. lia.
Qed.

(** X2.  A frame whose last byte is not the check byte of what precedes
    it is never handed over: the receiver collects the payload, answers
    with the single call that sends NAK, and is idle again.  With the right
    check byte the payload is handed over, and no NAK is sent. *)
Theorem X2_frame_check_byte (payload : list Z) (c : Z) (s : rx_state) :
  (1 <= length payload <= 20)%nat ->
  is_protocol_byte (rd payload 0) = false ->
  kmRxStatus s = KM_RX_IDLE ->
  length (buf (kmRxBuf s)) = 20%nat ->
  let r := rxRun (stuffed payload ++ [KM_DLE; KM_ETX; c]) s in
  kmRxStatus (fst r) = KM_RX_IDLE
  /\ (c <> frame_bcc payload -> snd r = [Call_sendTxBlock KmCNAK 1])
  /\ (c = frame_bcc payload -> map handed_block (snd r) = [Some payload]).
Proof.
  intros Hlen Hp Hs Hb r. unfold r.
  destruct (rxRun_frame payload c s Hlen Hp Hs Hb) as (b & Hbl & Htk & Hrun).
  rewrite Hrun. cbn [fst snd kmRxStatus mkRx]. split; [reflexivity|].
  destruct (Z.eqb_spec (Z.lxor (frame_bcc payload) c) 0) as [H0|H0].
  - apply Z.lxor_eq in H0. split; [intros Hne; congruence|].
    intros _. cbn [map handed_block]. now rewrite Nat2Z.id, Htk.
  - split; [reflexivity|]. intros ->. rewrite Z.lxor_nilpotent in H0. contradiction.
Qed.

(** X2 witness: the frame of [80 02 41] with the last byte [00] and with
    the right check byte [D0]. *)
Lemma X2_frame_check_byte_witness :
  snd (rxRun (stuffed [0x80; 0x02; 0x41] ++ [KM_DLE; KM_ETX; 0x00]) rx_idle)
  = [Call_sendTxBlock KmCNAK 1]
  /\ map handed_block
       (snd (rxRun (stuffed [0x80; 0x02; 0x41] ++ [KM_DLE; KM_ETX; 0xD0]) rx_idle))
     = [Some [0x80; 0x02; 0x41]].
Proof.
  split.
  - apply (X2_frame_check_byte [0x80; 0x02; 0x41] 0x00 rx_idle);
      [simpl; lia | reflexivity | reflexivity | reflexivity | discriminate].
  - apply (X2_frame_check_byte [0x80; 0x02; 0x41] 0xD0 rx_idle);
      [simpl; lia | reflexivity | reflexivity | reflexivity | reflexivity].
Defined.

(** Frame after frame, from the idle state. *)
Lemma rxRun_encoded_sequence payloads : forall s,
  Forall payload_ok payloads ->
  kmRxStatus s = KM_RX_IDLE ->
  length (buf (kmRxBuf s)) = 20%nat ->
  map handed_block (snd (rxRun (concat (map encode payloads)) s)) = map Some payloads
  /\ kmRxStatus (fst (rxRun (concat (map encode payloads)) s)) = KM_RX_IDLE
  /\ length (buf (kmRxBuf (fst (rxRun (concat (map encode payloads)) s)))) = 20%nat.
Proof.
  induction payloads as [|p rest IH]; intros s Hall Hs Hb.
  - simpl. auto.
  - inversion Hall as [|? ? Hp Hrest]; subst.
    destruct (rxRun_encode p s Hp Hs Hb) as (s1 & data & bcc & Hrun & Hs1 & Hd & Hdl & Htk).
    cbn [map concat]. rewrite rxRun_app, Hrun.
    assert (Hb1 : length (buf (kmRxBuf s1)) = 20%nat) by now rewrite Hd.
    destruct (IH s1 Hrest Hs1 Hb1) as (H1 & H2 & H3).
    destruct (rxRun (concat (map encode rest)) s1) as [s2 c2].
    cbn [fst snd] in *. cbn [app map handed_block].
    rewrite Nat2Z.id, Htk, H1. auto.
Qed.



(** X4.  Resynchronisation: a receiver in resync ignores everything up to
    the first STX, hands that STX over, and from then on receives frames
    as from the idle state. *)
Theorem X4_resync_then_frames
    (junk : list Z) (payloads : list (list Z)) (s : rx_state) :
  kmRxStatus s = KM_RX_RESYNC ->
  length (buf (kmRxBuf s)) = 20%nat ->
  Forall (fun b => b <> KM_STX) junk ->
  Forall payload_ok payloads ->
  map handed_block
    (snd (rxRun (junk ++ [KM_STX] ++ concat (map encode payloads)) s))
  = Some [KM_STX] :: map Some payloads.
Proof.
  intros Hs Hb Hjunk Hall.
  destruct (rxRun_resync_silent junk s Hs Hjunk) as (Hst & Hbuf & Hcalls).
  rewrite rxRun_app.
  destruct (rxRun junk s) as [s1 c1]. cbn [fst snd] in *. subst c1.
  rewrite rxRun_app. cbn [rxRun].
  assert (Hstep : rxByteStep KM_STX s1
                  = (mkRx KM_RX_IDLE (Z.lxor (kmRxBcc s1) KM_STX)
                       {| len := 1; buf := <[0%nat := KM_STX]> (buf (kmRxBuf s1)) |},
                     [Call_handleRxBlock (<[0%nat := KM_STX]> (buf (kmRxBuf s1))) 1 KM_STX])).
  { unfold rxByteStep. rewrite Hst. reflexivity. }
  rewrite Hstep.
  set (s2 := mkRx KM_RX_IDLE (Z.lxor (kmRxBcc s1) KM_STX)
               {| len := 1; buf := <[0%nat := KM_STX]> (buf (kmRxBuf s1)) |}).
  assert (Hb2 : length (buf (kmRxBuf s2)) = 20%nat).
  { unfold s2. cbn [kmRxBuf mkRx buf]. rewrite length_insert. now rewrite Hbuf. }
  destruct (rxRun_encoded_sequence payloads s2 Hall eq_refl Hb2) as (H1 & _).
  destruct (rxRun (concat (map encode payloads)) s2) as [s3 c3].
  cbn [fst snd app map handed_block] in *.
  rewrite H1. f_equal. f_equal.
  change (Z.to_nat 1) with (S 0).
  rewrite take_insert_next by (rewrite Hbuf; lia). reflexivity.
Qed.

(** X4 witness: line noise [41 10 03 15], then STX, then one frame. *)
Lemma X4_resync_then_frames_witness :
  map handed_block
    (snd (rxRun ([0x41; 0x10; 0x03; 0x15] ++ [KM_STX] ++ concat (map encode [[0x80; 0x02; 0x41]]))
            rx_init))
  = [Some [KM_STX]; Some [0x80; 0x02; 0x41]].
Proof.
  apply (X4_resync_then_frames [0x41; 0x10; 0x03; 0x15] [[0x80; 0x02; 0x41]] rx_init).
  - reflexivity.
  - reflexivity.
  - repeat constructor; discriminate.
  - repeat (constructor;
            [split; [simpl; lia | first [left; reflexivity | right; reflexivity]]|]).
    constructor.
Defined.

(** ** What the receiver hands over *)

Lemma rd_insert_head (l : list Z) x : (0 < length l)%nat -> rd (<[0%nat := x]> l) 0 = x.
Proof. destruct l; simpl; [lia | reflexivity]. Qed.

Lemma rd_insert_later (l : list Z) n x : (0 < n)%nat -> rd (<[n := x]> l) 0 = rd l 0.
Proof. destruct l, n; simpl; intros; try lia; reflexivity. Qed.

Lemma rx_init_block_inv : rx_block_inv rx_init.
Proof. split; [reflexivity | exact I]. Qed.

Lemma rxByteStep_block_inv b s :
  rx_block_inv s ->
  rx_block_inv (fst (rxByteStep b s)) /\ Forall call_shape (snd (rxByteStep b s)).
Proof.
  destruct s as [st bcc [l bf]]. unfold rx_block_inv, rxByteStep, KM_RX_BUF_LEN.
  cbn [kmRxStatus kmRxBcc kmRxBuf len buf]. intros [Hbf Hst].
  destruct st.
  - (* resync *)
    destruct (Z.eqb_spec b KM_STX) as [->|_]; cbn [fst snd mkRx kmRxStatus kmRxBuf buf len].
    + rewrite length_insert. split; [auto|].
      constructor; [|constructor]. cbn [call_shape]. rewrite length_insert.
      split; [assumption|]. left. rewrite rd_insert_head by lia. auto.
    + auto.
  - (* idle *)
    destruct (is_protocol_byte b) eqn:Hp; cbn [fst snd mkRx kmRxStatus kmRxBuf buf len];
      rewrite ?length_insert.
    + split; [auto|]. constructor; [|constructor]. cbn [call_shape].
      rewrite length_insert. split; [assumption|]. left.
      rewrite rd_insert_head by lia. auto.
    + rewrite rd_insert_head by lia. split; [|constructor].
      split; [assumption|]. split; [lia | assumption].
  - (* receiving *)
    destruct Hst as [Hl Hp0].
    destruct (Z.eqb_spec b KM_DLE) as [->|_];
      [|destruct (Z.geb_spec l 20)];
      cbn [fst snd mkRx kmRxStatus kmRxBuf buf len]; rewrite ?length_insert; auto.
    split; [|constructor]. split; [assumption|].
    rewrite Z.mod_small by lia. rewrite rd_insert_later by lia. split; [lia | assumption].
  - (* after DLE *)
    destruct Hst as [Hl Hp0].
    destruct (Z.eqb_spec b KM_DLE) as [->|_];
      [destruct (Z.geb_spec l 20) | destruct (Z.eqb_spec b KM_ETX)];
      cbn [fst snd mkRx kmRxStatus kmRxBuf buf len]; rewrite ?length_insert; auto.
    split; [|constructor]. split; [assumption|].
    rewrite Z.mod_small by lia. rewrite rd_insert_later by lia. split; [lia | assumption].
  - (* BCC *)
    destruct Hst as [Hl Hp0]. cbn [fst snd mkRx kmRxStatus kmRxBuf buf len].
    split; [auto|].
    destruct (Z.lxor bcc b =? 0); constructor; try constructor;
      cbn [call_shape]; auto.
Qed.

(** X5.  Every block the receiver hands to [handleRxBlock] is either a
    single protocol byte (STX, DLE or NAK, with length 1) or a block of 1
    to 20 bytes whose first byte is not a protocol byte; the only thing the
    receiver ever sends is NAK.  This holds from program start and from
    every state in which a block under reception has its first byte in
    place. *)
Theorem X5_handed_blocks_shape (bytes : list Z) (s : rx_state) :
  rx_block_inv s ->
  rx_block_inv (fst (rxRun bytes s))
  /\ Forall call_shape (snd (rxRun bytes s))
  /\ Forall call_shape (snd (rxRun bytes rx_init)).
Proof.
  assert (Hgen : forall bs t, rx_block_inv t ->
                   rx_block_inv (fst (rxRun bs t)) /\ Forall call_shape (snd (rxRun bs t))).
  { induction bs as [|b rest IH]; intros t Ht; cbn [rxRun].
    - split; [assumption | constructor].
    - destruct (rxByteStep_block_inv b t Ht) as [H1 H2].
      destruct (rxByteStep b t) as [t1 c1]. cbn [fst snd] in *.
      destruct (IH t1 H1) as [H3 H4].
      destruct (rxRun rest t1) as [t2 c2]. cbn [fst snd] in *.
      split; [assumption | now apply Forall_app]. }
  intros Hs. destruct (Hgen bytes s Hs) as [H1 H2].
  split; [exact H1|]. split; [exact H2|].
  apply (Hgen bytes rx_init rx_init_block_inv).
Qed.

(** X5 witness: a byte stream with noise, control bytes and a frame. *)
Lemma X5_handed_blocks_shape_witness :
  Forall call_shape
    (snd (rxRun [0x41; 0x02; 0x10; 0x80; 0x02; 0x41; 0x10; 0x03; 0xD0; 0x15] rx_init)).
Proof.
  exact (proj1 (proj2 (X5_handed_blocks_shape
                         [0x41; 0x02; 0x10; 0x80; 0x02; 0x41; 0x10; 0x03; 0xD0; 0x15]
                         rx_init rx_init_block_inv))).
Defined.

(** ** The decoder: what a block stores *)

(** [parseInfo] changes [kmState] and publishes; nothing else. *)
Lemma parseInfo_rest D data l w :
  accessMutex (parseInfo D data l w) = accessMutex w
  /\ KmRxBlockState (parseInfo D data l w) = KmRxBlockState w
  /\ rx (parseInfo D data l w) = rx w
  /\ send_request (parseInfo D data l w) = send_request w
  /\ send_buf (parseInfo D data l w) = send_buf w
  /\ km271LogModeActive (parseInfo D data l w) = km271LogModeActive w
  /\ Serial2_tx (parseInfo D data l w) = Serial2_tx w.
Proof.
  unfold parseInfo. destruct (decodeBlock D data (kmState w)) as [t msgs].
  destruct (status_differs _ _); repeat split.
Qed.

(** The scratch copy after the case of a [uint8_t] member's register. *)
Lemma decodeBlock_u8_store D data t m :
  block_register data = u8_register m ->
  fst (decodeBlock D data t) = set_u8 m (rd data 2) t.
Proof.
  unfold block_register. intros H. unfold decodeBlock. rewrite H.
  destruct m; reflexivity.
Qed.

(** The scratch copy after the case of a [float] member's register. *)
Lemma decodeBlock_f32_store D data t m :
  block_register data = f32_register m ->
  fst (decodeBlock D data t) = set_f32 m (f32_decoder m (rd data 2)) t.
Proof.
  unfold block_register. intros H. unfold decodeBlock. rewrite H.
  destruct m; reflexivity.
Qed.

Lemma set_f32_same m v s : f32 (set_f32 m v s) m = v.
Proof. unfold set_f32. simpl. now destruct (decide (m = m)). Qed.

Lemma parseInfo_u8_update D data l w m :
  block_register data = u8_register m ->
  u8 (kmState (parseInfo D data l w)) m = rd data 2.
Proof.
  intros H. destruct (parseInfo_effect D data l w) as [Hk _]. cbv zeta in Hk.
  rewrite (decodeBlock_u8_store D data _ m H) in Hk. rewrite Hk. clear Hk.
  destruct (status_differs _ _) eqn:Hd.
  - apply set_u8_same.
  - apply status_same_members in Hd. destruct Hd as [Hu _].
    rewrite <- Hu. apply set_u8_same.
Qed.

Lemma parseInfo_f32_update D data l w m :
  block_register data = f32_register m ->
  (f32 (kmState (parseInfo D data l w)) m == f32_decoder m (rd data 2))%Q.
Proof.
  intros H. destruct (parseInfo_effect D data l w) as [Hk _]. cbv zeta in Hk.
  rewrite (decodeBlock_f32_store D data _ m H) in Hk. rewrite Hk. clear Hk.
  destruct (status_differs _ _) eqn:Hd.
  - rewrite set_f32_same. reflexivity.
  - apply status_same_members in Hd. destruct Hd as [_ Hf].
    rewrite <- Hf, set_f32_same. reflexivity.
Qed.

(** X6.  A block whose register identifier is the one a member of the
    status store is assigned under leaves that member holding the block's
    third byte as decoded for the member: the byte itself for a [uint8_t]
    member, and for a [float] member the byte as a number, the byte halved
    (room temperatures) or the byte read as signed (outside temperatures).
    A status read through [km271GetStatus], once the mutex exists, returns
    exactly that store, whatever the caller's structure held. *)
Theorem X6_parseInfo_stores_decoded_byte
    (DEBUG_ON : bool) (data : list Z) (l : Z) (w : world) :
  (forall m, block_register data = u8_register m ->
             u8 (kmState (parseInfo DEBUG_ON data l w)) m = rd data 2)
  /\ (forall m, block_register data = f32_register m ->
                (f32 (kmState (parseInfo DEBUG_ON data l w)) m
                 == f32_decoder m (rd data 2))%Q)
  /\ (forall dest id, accessMutex w = Handle id ->
        km271GetStatus dest (parseInfo DEBUG_ON data l w)
        = kmState (parseInfo DEBUG_ON data l w)).
Proof.
  split; [|split].
  - intros m. apply parseInfo_u8_update.
  - intros m. apply parseInfo_f32_update.
  - intros dest id Hm. unfold km271GetStatus.
    destruct (parseInfo_rest DEBUG_ON data l w) as [-> _]. now rewrite Hm.
Qed.

(** X6 witness: the block [89 3C F6] leaves -10 as the outside temperature. *)
Lemma X6_parseInfo_stores_decoded_byte_witness :
  (f32 (kmState (parseInfo false x6_block 3 world_init)) OutsideTemp == -10)%Q.
Proof.
  exact (proj1 (proj2 (X6_parseInfo_stores_decoded_byte false x6_block 3 world_init))
               OutsideTemp eq_refl).
Defined.

(** ** The cyclic task as receiver plus calls *)

Lemma parseInfo_set_rx D data l s w :
  parseInfo D data l (set_rx s w) = set_rx s (parseInfo D data l w).
Proof.
  unfold parseInfo. change (kmState (set_rx s w)) with (kmState w).
  destruct (decodeBlock D data (kmState w)) as [t msgs].
  change (kmState (mqttPublish msgs (set_rx s w))) with (kmState w).
  change (kmState (mqttPublish msgs w)) with (kmState w).
  now destruct (status_differs t (kmState w)).
Qed.

Lemma parseInfo_set_LogMode D data l f w :
  parseInfo D data l (set_km271LogModeActive f w)
  = set_km271LogModeActive f (parseInfo D data l w).
Proof.
  unfold parseInfo. change (kmState (set_km271LogModeActive f w)) with (kmState w).
  destruct (decodeBlock D data (kmState w)) as [t msgs].
  change (kmState (mqttPublish msgs (set_km271LogModeActive f w))) with (kmState w).
  change (kmState (mqttPublish msgs w)) with (kmState w).
  now destruct (status_differs t (kmState w)).
Qed.

Lemma handleRxBlock_set_rx D data l c s w :
  handleRxBlock D data l c (set_rx s w) = set_rx s (handleRxBlock D data l c w).
Proof.
  unfold handleRxBlock.
  change (KmRxBlockState (set_rx s w)) with (KmRxBlockState w).
  change (send_request (set_rx s w)) with (send_request w).
  change (send_buf (set_rx s w)) with (send_buf w).
  rewrite parseInfo_set_rx.
  destruct (KmRxBlockState w);
    repeat match goal with
           | |- context [if ?c then _ else _] => destruct c
           end; reflexivity.
Qed.

Lemma handleRxBlock_set_LogMode D data l c f w :
  handleRxBlock D data l c (set_km271LogModeActive f w)
  = set_km271LogModeActive f (handleRxBlock D data l c w).
Proof.
  unfold handleRxBlock.
  change (KmRxBlockState (set_km271LogModeActive f w)) with (KmRxBlockState w).
  change (send_request (set_km271LogModeActive f w)) with (send_request w).
  change (send_buf (set_km271LogModeActive f w)) with (send_buf w).
  rewrite parseInfo_set_LogMode.
  destruct (KmRxBlockState w);
    repeat match goal with
           | |- context [if ?c then _ else _] => destruct c
           end; reflexivity.
Qed.

Lemma drive_set_rx D calls : forall s w,
  drive D calls (set_rx s w) = set_rx s (drive D calls w).
Proof.
  unfold drive. induction calls as [|c rest IH]; intros s w; [reflexivity|].
  cbn [fold_left]. rewrite <- IH. f_equal.
  destruct c; cbn [execCall]; [apply handleRxBlock_set_rx | reflexivity].
Qed.

Lemma drive_set_LogMode D calls : forall f w,
  drive D calls (set_km271LogModeActive f w)
  = set_km271LogModeActive f (drive D calls w).
Proof.
  unfold drive. induction calls as [|c rest IH]; intros f w; [reflexivity|].
  cbn [fold_left]. rewrite <- IH. f_equal.
  destruct c; cbn [execCall]; [apply handleRxBlock_set_LogMode | reflexivity].
Qed.

Lemma drive_app D c1 c2 w : drive D (c1 ++ c2) w = drive D c2 (drive D c1 w).
Proof. unfold drive. apply fold_left_app. Qed.

(** One byte: the receiver's step, then its calls, then the mirror of the
    session state. *)
Lemma cyclicKM271_byte D b w :
  cyclicKM271 D (Some b) w
  = set_km271LogModeActive
      (is_logging (drive D (snd (rxByteStep b (rx w))) w))
      (set_rx (fst (rxByteStep b (rx w)))
         (drive D (snd (rxByteStep b (rx w))) w)).
Proof.
  unfold cyclicKM271. destruct (rxByteStep b (rx w)) as [s calls]. cbn [fst snd].
  fold (drive D calls (set_rx s w)). rewrite drive_set_rx. reflexivity.
Qed.

(** A run of bytes: the receiver's run, then all its calls in order. *)
Lemma cyclicRun_factor D bytes : forall b w,
  cyclicRun D (b :: bytes) w
  = set_km271LogModeActive
      (is_logging (drive D (snd (rxRun (b :: bytes) (rx w))) w))
      (set_rx (fst (rxRun (b :: bytes) (rx w)))
         (drive D (snd (rxRun (b :: bytes) (rx w))) w)).
Proof.
  induction bytes as [|b' rest IH]; intros b w.
  - unfold cyclicRun. cbn [fold_left rxRun]. rewrite cyclicKM271_byte.
    destruct (rxByteStep b (rx w)) as [s calls]. cbn [fst snd]. now rewrite app_nil_r.
  - change (cyclicRun D (b :: b' :: rest) w)
      with (cyclicRun D (b' :: rest) (cyclicKM271 D (Some b) w)).
    rewrite IH, cyclicKM271_byte.
    cbn [rxRun]. destruct (rxByteStep b (rx w)) as [s1 c1]. cbn [fst snd].
    change (rx (set_km271LogModeActive (is_logging (drive D c1 w))
                  (set_rx s1 (drive D c1 w)))) with s1.
    destruct (rxByteStep b' s1) as [s2 c2].
    destruct (rxRun rest s2) as [s3 c3]. cbn [fst snd].
    rewrite !drive_app, !drive_set_LogMode, !drive_set_rx. reflexivity.
Qed.

(** The receiver makes at most one call per byte. *)
Lemma rxByteStep_calls b s :
  snd (rxByteStep b s) = []
  \/ (exists data l c, snd (rxByteStep b s) = [Call_handleRxBlock data l c])
  \/ snd (rxByteStep b s) = [Call_sendTxBlock KmCNAK 1].
Proof.
  unfold rxByteStep. destruct (kmRxStatus s);
    repeat match goal with
           | |- context [if ?c then _ else _] => destruct c
           end; cbn [snd]; eauto 6.
Qed.

(** ** The session manager *)

Lemma handleRxBlock_slot D data l c w :
  send_buf (handleRxBlock D data l c w) = send_buf w
  /\ (send_request (handleRxBlock D data l c w) = send_request w
      \/ (send_request (handleRxBlock D data l c w) = false
          /\ KmRxBlockState w = KM_TSK_LOGGING
          /\ KmRxBlockState (handleRxBlock D data l c w) = KM_TSK_START
          /\ Serial2_tx (handleRxBlock D data l c w)
             = Serial2_tx w ++ sendTxBlock (send_buf w) 8)).
Proof.
  unfold handleRxBlock.
  destruct (parseInfo_rest D data l w) as (_ & _ & _ & Hr & Hb & _).
  assert (Hw : forall bytes (P : Prop),
             send_buf (Serial2_write bytes w) = send_buf w
             /\ (send_request (Serial2_write bytes w) = send_request w \/ P)).
  { intros bytes P. split; [reflexivity | left; reflexivity]. }
  destruct (KmRxBlockState w) eqn:Hst.
  - destruct (rd data 0 =? KM_STX); [|destruct (rd data 0 =? KM_DLE)];
      (split; [reflexivity | left; reflexivity]).
  - destruct (negb (rd data 0 =? KM_DLE)); (split; [reflexivity | left; reflexivity]).
  - destruct (rd data 0 =? KM_STX).
    + destruct (send_request w); apply Hw.
    + destruct (rd data 0 =? KM_DLE).
      * split; [reflexivity|]. right. repeat split.
      * cbn [Serial2_write send_buf send_request]. auto.
Qed.

Lemma handleRxBlock_store D data l c w :
  KmRxBlockState w <> KM_TSK_LOGGING ->
  kmState (handleRxBlock D data l c w) = kmState w
  /\ mqtt (handleRxBlock D data l c w) = mqtt w.
Proof.
  unfold handleRxBlock. intros Hst.
  destruct (KmRxBlockState w); try contradiction;
    repeat match goal with
           | |- context [if ?c then _ else _] => destruct c
           end; split; reflexivity.
Qed.

(** X7.  The cyclic task never arms the send slot and never alters the
    send buffer.  The only way it changes the pending flag is by clearing
    it, and that happens only in logging mode, together with writing the
    framed send buffer to the serial line and falling back to the start
    state. *)
Theorem X7_send_slot_released_only_by_transmission
    (DEBUG_ON : bool) (rxByte : option Z) (w : world) :
  send_buf (cyclicKM271 DEBUG_ON rxByte w) = send_buf w
  /\ (send_request (cyclicKM271 DEBUG_ON rxByte w) = send_request w
      \/ (send_request (cyclicKM271 DEBUG_ON rxByte w) = false
          /\ KmRxBlockState w = KM_TSK_LOGGING
          /\ KmRxBlockState (cyclicKM271 DEBUG_ON rxByte w) = KM_TSK_START
          /\ Serial2_tx (cyclicKM271 DEBUG_ON rxByte w)
             = Serial2_tx w ++ sendTxBlock (send_buf w) 8)).
Proof.
  destruct rxByte as [b|]; [|split; [reflexivity | left; reflexivity]].
  rewrite cyclicKM271_byte.
  cbn [send_buf send_request KmRxBlockState Serial2_tx set_km271LogModeActive set_rx].
  destruct (rxByteStep_calls b (rx w)) as [-> | [(data & l & c & ->) | ->]].
  - split; [reflexivity | left; reflexivity].
  - apply handleRxBlock_slot.
  - split; [reflexivity | left; reflexivity].
Qed.

(** X8.  Outside logging mode the cyclic task neither changes the status
    store nor publishes anything, whatever byte arrives. *)
Theorem X8_store_untouched_outside_logging
    (DEBUG_ON : bool) (rxByte : option Z) (w : world) :
  KmRxBlockState w <> KM_TSK_LOGGING ->
  kmState (cyclicKM271 DEBUG_ON rxByte w) = kmState w
  /\ mqtt (cyclicKM271 DEBUG_ON rxByte w) = mqtt w.
Proof.
  intros Hst. destruct rxByte as [b|]; [|split; reflexivity].
  rewrite cyclicKM271_byte.
  cbn [kmState mqtt set_km271LogModeActive set_rx].
  destruct (rxByteStep_calls b (rx w)) as [-> | [(data & l & c & ->) | ->]].
  - split; reflexivity.
  - now apply handleRxBlock_store.
  - split; reflexivity.
Qed.

(** X8 witness: the peer's first STX on the freshly started driver. *)
Lemma X8_store_untouched_outside_logging_witness :
  kmState (cyclicKM271 false (Some KM_STX) world_init) = kmState world_init
  /\ mqtt (cyclicKM271 false (Some KM_STX) world_init) = mqtt world_init.
Proof.
  apply (X8_store_untouched_outside_logging false (Some KM_STX) world_init).
  discriminate.
Defined.

(** The receiver on two protocol bytes, from idle. *)
Lemma rxRun_two_protocol_bytes b1 b2 s :
  kmRxStatus s = KM_RX_IDLE ->
  is_protocol_byte b1 = true -> is_protocol_byte b2 = true ->
  rxRun [b1; b2] s
  = (mkRx KM_RX_IDLE b2
       {| len := 1; buf := <[0%nat := b2]> (<[0%nat := b1]> (buf (kmRxBuf s))) |},
     [Call_handleRxBlock (<[0%nat := b1]> (buf (kmRxBuf s))) 1 b1;
      Call_handleRxBlock (<[0%nat := b2]> (<[0%nat := b1]> (buf (kmRxBuf s)))) 1 b2]).
Proof.
  intros Hs H1 H2. cbn [rxRun].
  rewrite (step_idle_protocol b1 s Hs H1).
  rewrite step_idle_protocol by (auto; reflexivity). reflexivity.
Qed.

(** X9.  The send window.  In logging mode with the receiver idle, the
    peer's STX is answered with STX when a command is pending and with DLE
    otherwise; the peer's DLE that follows makes the driver write the
    framed send buffer, clear the pending flag and fall back to the start
    state -- in both cases, so that a DLE after an acknowledged STX sends
    the buffer's last content although nothing is pending. *)
Theorem X9_send_window (DEBUG_ON : bool) (w : world) :
  logging_idle w ->
  let w' := cyclicRun DEBUG_ON [KM_STX; KM_DLE] w in
  Serial2_tx w'
  = Serial2_tx w ++ [if send_request w then KM_STX else KM_DLE]
      ++ sendTxBlock (send_buf w) 8
  /\ send_request w' = false
  /\ send_buf w' = send_buf w
  /\ KmRxBlockState w' = KM_TSK_START
  /\ km271LogModeActive w' = false
  /\ kmState w' = kmState w
  /\ mqtt w' = mqtt w.
Proof.
  intros (Hst & Hrx & Hbuf) w'. unfold w'.
  rewrite cyclicRun_factor, (rxRun_two_protocol_bytes KM_STX KM_DLE (rx w) Hrx eq_refl eq_refl).
  cbn [fst snd]. unfold drive, is_logging. cbn [fold_left execCall].
  set (a1 := <[0%nat := KM_STX]> (buf (kmRxBuf (rx w)))).
  assert (H1 : handleRxBlock DEBUG_ON a1 1 KM_STX w
               = Serial2_write [if send_request w then KM_STX else KM_DLE] w).
  { unfold handleRxBlock. rewrite Hst. unfold a1. rewrite rd_insert_head by lia.
    cbn [Z.eqb KM_STX Pos.eqb]. now destruct (send_request w). }
  rewrite H1.
  assert (H2 : forall w0, KmRxBlockState w0 = KM_TSK_LOGGING ->
               handleRxBlock DEBUG_ON (<[0%nat := KM_DLE]> a1) 1 KM_DLE w0
               = set_KmRxBlockState KM_TSK_START
                   (set_send_request false
                      (Serial2_write (sendTxBlock (send_buf w0) 8) w0))).
  { intros w0 H0. unfold handleRxBlock. rewrite H0.
    rewrite rd_insert_head by (unfold a1; rewrite length_insert; lia). reflexivity. }
  rewrite H2 by exact Hst.
  cbn [Serial2_tx send_request send_buf KmRxBlockState km271LogModeActive kmState mqtt
       set_km271LogModeActive set_rx set_KmRxBlockState set_send_request Serial2_write].
  rewrite <- app_assoc. repeat split.
Qed.

(** X9 witness: in logging mode with nothing pending, STX then DLE. *)
Lemma X9_send_window_witness :
  Serial2_tx (cyclicRun false [KM_STX; KM_DLE] world_logging)
  = Serial2_tx world_logging ++ [KM_DLE] ++ sendTxBlock (replicate 8 0) 8
  /\ KmRxBlockState (cyclicRun false [KM_STX; KM_DLE] world_logging) = KM_TSK_START.
Proof.
  destruct (X9_send_window false world_logging
              ltac:(repeat split; reflexivity)) as (H1 & _ & _ & H4 & _).
  split; [exact H1 | exact H4].
Defined.

(** X10.  The handshake.  In the start state with the receiver idle, the
    peer's STX is answered with STX and its DLE with the framed log-mode
    command; a second DLE then opens logging mode, while STX or NAK in its
    place sends the session back to the start state.  Nothing more is
    written in either case. *)
Theorem X10_handshake (DEBUG_ON : bool) (w : world) :
  KmRxBlockState w = KM_TSK_START ->
  kmRxStatus (rx w) = KM_RX_IDLE ->
  length (buf (kmRxBuf (rx w))) = 20%nat ->
  forall x, is_protocol_byte x = true ->
    let w' := cyclicRun DEBUG_ON [KM_STX; KM_DLE; x] w in
    Serial2_tx w' = Serial2_tx w ++ [KM_STX; 0xEE; 0x00; 0x00; 0x10; 0x03; 0xFD]
    /\ (x = KM_DLE ->
        KmRxBlockState w' = KM_TSK_LOGGING /\ km271LogModeActive w' = true)
    /\ (x <> KM_DLE ->
        KmRxBlockState w' = KM_TSK_START /\ km271LogModeActive w' = false)
    /\ kmState w' = kmState w
    /\ mqtt w' = mqtt w
    /\ send_request w' = send_request w.
Proof.
  intros Hst Hrx Hbuf x Hx w'. unfold w'.
  rewrite cyclicRun_factor.
  change [KM_STX; KM_DLE; x] with ([KM_STX; KM_DLE] ++ [x]).
  rewrite rxRun_app,
    (rxRun_two_protocol_bytes KM_STX KM_DLE (rx w) Hrx eq_refl eq_refl).
  cbn [rxRun]. rewrite step_idle_protocol by (auto; reflexivity).
  cbn [fst snd app kmRxBuf mkRx buf]. unfold drive, is_logging.
  cbn [fold_left execCall].
  set (a1 := <[0%nat := KM_STX]> (buf (kmRxBuf (rx w)))).
  set (a2 := <[0%nat := KM_DLE]> a1).
  assert (Hl1 : length a1 = 20%nat) by (unfold a1; now rewrite length_insert).
  assert (Hl2 : length a2 = 20%nat) by (unfold a2; now rewrite length_insert).
  assert (H1 : handleRxBlock DEBUG_ON a1 1 KM_STX w = Serial2_write [KM_STX] w).
  { unfold handleRxBlock. rewrite Hst. unfold a1. rewrite rd_insert_head by lia.
    reflexivity. }
  rewrite H1.
  assert (H2 : handleRxBlock DEBUG_ON a2 1 KM_DLE (Serial2_write [KM_STX] w)
               = set_KmRxBlockState KM_TSK_LG_CMD
                   (Serial2_write [0xEE; 0x00; 0x00; 0x10; 0x03; 0xFD]
                      (Serial2_write [KM_STX] w))).
  { unfold handleRxBlock.
    change (KmRxBlockState (Serial2_write [KM_STX] w)) with (KmRxBlockState w).
    rewrite Hst. unfold a2. rewrite rd_insert_head by lia. reflexivity. }
  rewrite H2.
  set (w2 := set_KmRxBlockState KM_TSK_LG_CMD _).
  assert (H3 : handleRxBlock DEBUG_ON (<[0%nat := x]> a2) 1 x w2
               = set_KmRxBlockState
                   (if x =? KM_DLE then KM_TSK_LOGGING else KM_TSK_START) w2).
  { unfold handleRxBlock. change (KmRxBlockState w2) with KM_TSK_LG_CMD.
    rewrite rd_insert_head by lia. now destruct (x =? KM_DLE). }
  rewrite H3. unfold w2.
  cbn [Serial2_tx send_request KmRxBlockState km271LogModeActive kmState mqtt
       set_km271LogModeActive set_rx set_KmRxBlockState Serial2_write].
  rewrite <- app_assoc.
  split; [reflexivity|].
  destruct (Z.eqb_spec x KM_DLE) as [Hd|Hd]; repeat split; intros; congruence.
Qed.

(** X10 witness: on the freshly started and resynchronised driver, a NAK
    in place of the second DLE. *)
Lemma X10_handshake_witness :
  KmRxBlockState
    (cyclicRun false [KM_STX; KM_DLE; KM_NAK] (cyclicRun false [KM_STX] world_init))
  = KM_TSK_START.
Proof.
  destruct (X10_handshake false (cyclicRun false [KM_STX] world_init)
              eq_refl eq_refl eq_refl KM_NAK eq_refl) as (_ & _ & H & _).
  exact (proj1 (H ltac:(discriminate))).
Defined.

Lemma rd_take (data payload : list Z) n i :
  take n data = payload -> (i < n)%nat -> rd data i = rd payload i.
Proof.
  intros <- Hi. unfold rd. rewrite !nth_lookup, lookup_take_lt by lia. reflexivity.
Qed.

(** X11.  A status frame in logging mode, end to end.  With the driver
    logging and the receiver idle, the bytes [sendTxBlock] writes for a
    payload of 1 to 20 bytes that does not begin with a protocol byte make
    the cyclic task run [parseInfo] once on a receive array that begins
    with the payload, acknowledge with the single byte DLE and stay in
    logging mode.  For a payload of at least three bytes whose register
    keys a member of the status store, that member then holds the decoded
    third payload byte. *)
Theorem X11_logging_frame_end_to_end
    (DEBUG_ON : bool) (payload : list Z) (w : world) :
  logging_idle w ->
  (1 <= length payload <= 20)%nat ->
  is_protocol_byte (rd payload 0) = false ->
  let w' := cyclicRun DEBUG_ON (encode payload) w in
  (exists data,
      length data = 20%nat
      /\ take (length payload) data = payload
      /\ kmState w' = kmState (parseInfo DEBUG_ON data (Z.of_nat (length payload)) w)
      /\ mqtt w' = mqtt (parseInfo DEBUG_ON data (Z.of_nat (length payload)) w))
  /\ Serial2_tx w' = Serial2_tx w ++ [KM_DLE]
  /\ KmRxBlockState w' = KM_TSK_LOGGING
  /\ kmRxStatus (rx w') = KM_RX_IDLE
  /\ send_request w' = send_request w
  /\ ((3 <= length payload)%nat ->
      (forall m, block_register payload = u8_register m ->
                 u8 (kmState w') m = rd payload 2)
      /\ (forall m, block_register payload = f32_register m ->
                    (f32 (kmState w') m == f32_decoder m (rd payload 2))%Q)).
Proof.
  intros (Hst & Hrx & Hbuf) Hlen Hp w'. unfold w'.
  destruct (rxRun_encode payload (rx w) (conj Hlen (or_intror Hp)) Hrx Hbuf)
    as (s1 & data & bcc & Hrun & Hs1 & Hd & Hdl & Htk).
  destruct (encode payload) as [|b bytes] eqn:He; [discriminate Hrun|].
  rewrite cyclicRun_factor, Hrun. cbn [fst snd]. unfold drive, is_logging.
  cbn [fold_left execCall].
  assert (H0 : rd data 0 = rd payload 0) by (apply (rd_take _ _ _ _ Htk); lia).
  assert (Hh : handleRxBlock DEBUG_ON data (Z.of_nat (length payload)) bcc w
               = Serial2_write [KM_DLE]
                   (parseInfo DEBUG_ON data (Z.of_nat (length payload)) w)).
  { unfold handleRxBlock. rewrite Hst, H0.
    unfold is_protocol_byte in Hp.
    destruct (rd payload 0 =? KM_STX), (rd payload 0 =? KM_DLE);
      simpl in Hp; try discriminate. reflexivity. }
  rewrite Hh.
  destruct (parseInfo_rest DEBUG_ON data (Z.of_nat (length payload)) w)
    as (_ & Hps & _ & Hpr & _ & _ & Hpt).
  cbn [Serial2_tx send_request KmRxBlockState km271LogModeActive kmState mqtt rx
       set_km271LogModeActive set_rx Serial2_write].
  rewrite Hps, Hpr, Hpt, Hst.
  split; [exists data; auto|].
  repeat split; try assumption.
  - intros m Hm. rewrite <- (rd_take data payload _ 2 Htk) by lia.
    apply parseInfo_u8_update.
    unfold block_register in *.
    now rewrite (rd_take data payload _ 0 Htk), (rd_take data payload _ 1 Htk) by lia.
  - intros m Hm. rewrite <- (rd_take data payload _ 2 Htk) by lia.
    apply parseInfo_f32_update.
    unfold block_register in *.
    now rewrite (rd_take data payload _ 0 Htk), (rd_take data payload _ 1 Htk) by lia.
Qed.

(** X11 witness: the frame of [89 3C F6] received in logging mode. *)
Lemma X11_logging_frame_end_to_end_witness :
  Serial2_tx (cyclicRun false (encode x11_payload) world_logging)
  = Serial2_tx world_logging ++ [KM_DLE]
  /\ (f32 (kmState (cyclicRun false (encode x11_payload) world_logging)) OutsideTemp
      == -10)%Q.
Proof.
  destruct (X11_logging_frame_end_to_end false x11_payload world_logging
              ltac:(repeat split; reflexivity) ltac:(simpl; lia) eq_refl)
    as (_ & H2 & _ & _ & _ & H6).
  split; [exact H2|].
  eapply Qeq_trans; [exact (proj2 (H6 ltac:(simpl; lia)) OutsideTemp eq_refl)|].
  reflexivity.
Defined.

(** ** The command builder *)

(** [km271sendCmd] on a parameter byte, command by command. *)
Lemma km271sendCmd_by_table c p w :
  0 <= p <= 255 ->
  km271sendCmd c p w
  = if param_in_range c p
    then armCmd (cmd_layout c p) (confirmation_text c) w
    else rejectCmd (rejection_text c) w.
Proof.
  intros _. unfold km271sendCmd, param_in_range.
  destruct c; cbn [spec_param_range fst snd];
    rewrite <- (Z.geb_leb p);
    match goal with
    | |- context [(?a && ?b)%bool] => destruct (a && b)%bool
    end; reflexivity.
Qed.

(** X12.  An accepted parameter byte leaves in the send buffer the
    command's data type and offset, the parameter in the command's byte and
    0x65 in the five others, with the pending flag set.  The buffer never
    begins with a protocol byte, so the session manager sends it as a
    framed block.  The command builder itself, accepting or rejecting,
    writes nothing to the serial line and leaves session state, receiver
    and status store alone. *)
Theorem X12_command_layout (c : e_km271_sendCmd) (p : Z) (w : world) :
  0 <= p <= 255 ->
  (param_in_range c p = true ->
   send_buf (km271sendCmd c p w) = cmd_layout c p
   /\ send_request (km271sendCmd c p w) = true
   /\ is_protocol_byte (rd (send_buf (km271sendCmd c p w)) 0) = false
   /\ sendTxBlock (send_buf (km271sendCmd c p w)) 8
      = stuffed (cmd_layout c p) ++ [KM_DLE; KM_ETX; frame_bcc (cmd_layout c p)])
  /\ Serial2_tx (km271sendCmd c p w) = Serial2_tx w
  /\ KmRxBlockState (km271sendCmd c p w) = KmRxBlockState w
  /\ rx (km271sendCmd c p w) = rx w
  /\ kmState (km271sendCmd c p w) = kmState w.
Proof.
  intros Hp. rewrite (km271sendCmd_by_table c p w Hp).
  destruct (param_in_range c p).
  - split; [|repeat split]. intros _.
    cbn [armCmd mqttPublish set_send_buf set_send_request send_buf send_request].
    split; [reflexivity|]. split; [reflexivity|]. split.
    + destruct c; reflexivity.
    + assert (Hl : length (cmd_layout c p) = 8%nat).
      { unfold cmd_layout. rewrite length_insert. reflexivity. }
      change 8 with (Z.of_nat 8). rewrite <- Hl.
      apply sendTxBlock_block.
      * intros H. rewrite H in Hl. discriminate Hl.
      * left. rewrite Hl. discriminate.
  - split; [intros H; discriminate H | repeat split].
Qed.

(** X12 witness: DHW setpoint 55. *)
Lemma X12_command_layout_witness :
  send_buf (km271sendCmd KM271_SENDCMD_WW_SOLL 55 world_init)
  = [0x0C; 0x07; 0x65; 0x65; 0x65; 0x37; 0x65; 0x65].
Proof.
  destruct (X12_command_layout KM271_SENDCMD_WW_SOLL 55 world_init ltac:(lia))
    as [H _].
  destruct (H eq_refl) as [H1 _]. rewrite H1. reflexivity.
Defined.

(** X13.  There is one send slot and no check for a pending command: an
    accepted command issued while another is pending overwrites it, so
    that the buffer is what the second command alone would leave, while
    both are confirmed as received; a rejected command leaves a pending
    one in place. *)
Theorem X13_second_command_overwrites
    (c1 c2 : e_km271_sendCmd) (p1 p2 : Z) (w : world) :
  0 <= p1 <= 255 -> 0 <= p2 <= 255 ->
  param_in_range c1 p1 = true ->
  let w1 := km271sendCmd c1 p1 w in
  let w2 := km271sendCmd c2 p2 w1 in
  (param_in_range c2 p2 = true ->
   send_buf w2 = cmd_layout c2 p2
   /\ send_request w2 = true
   /\ mqtt w2 = mqtt w ++ [pub "/message" (PText (confirmation_text c1));
                           pub "/message" (PText (confirmation_text c2))])
  /\ (param_in_range c2 p2 = false ->
      send_buf w2 = cmd_layout c1 p1
      /\ send_request w2 = true
      /\ mqtt w2 = mqtt w ++ [pub "/message" (PText (confirmation_text c1));
                              pub "/message" (PText (rejection_text c2))]).
Proof.
  intros Hp1 Hp2 H1 w1 w2. unfold w2, w1.
  rewrite (km271sendCmd_by_table c2 p2 _ Hp2), (km271sendCmd_by_table c1 p1 w Hp1), H1.
  destruct (param_in_range c2 p2);
    (split; intros H; [|]; try discriminate H);
    cbn [armCmd rejectCmd mqttPublish set_send_buf set_send_request
         send_buf send_request mqtt];
    rewrite <- app_assoc; repeat split.
Qed.

(** X13 witness: HK1 design 75 pending, then DHW setpoint 55. *)
Lemma X13_second_command_overwrites_witness :
  send_buf (km271sendCmd KM271_SENDCMD_WW_SOLL 55
              (km271sendCmd KM271_SENDCMD_HK1_AUSLEGUNG 75 world_init))
  = [0x0C; 0x07; 0x65; 0x65; 0x65; 0x37; 0x65; 0x65].
Proof.
  destruct (X13_second_command_overwrites
              KM271_SENDCMD_HK1_AUSLEGUNG KM271_SENDCMD_WW_SOLL 75 55 world_init
              ltac:(lia) ltac:(lia) eq_refl) as [H _].
  destruct (H eq_refl) as [H1 _]. rewrite H1. reflexivity.
Defined.

(** A property checked on every number below [n] holds of each of them. *)
Lemma checked_below (f : Z -> bool) (n : nat) :
  forallb f (map Z.of_nat (seq 0 n)) = true ->
  forall z, 0 <= z < Z.of_nat n -> f z = true.
Proof.
  intros H z Hz. rewrite forallb_forall in H. apply H.
  apply in_map_iff. exists (Z.to_nat z). split; [lia|].
  apply in_seq. lia.
Qed.

(** X14.  [km271SetDateTime] always arms the send slot, whatever was
    pending.  For a time whose members are in their calendar ranges the
    buffer is 01 00, seconds, minutes, the hour plus 64 when daylight
    saving is on, the day of the month, the month plus 16 times the day of
    the week, and [tm_year - 1900] reduced modulo 256 -- which for a
    [tm_year] from 108 to 363 is [tm_year - 108]. *)
Theorem X14_SetDateTime_packing (dti : tm) (w : world) :
  tm_in_range dti ->
  let w' := km271SetDateTime dti w in
  send_request w' = true
  /\ send_buf w'
     = [0x01; 0x00; tm_sec dti; tm_min dti;
        tm_hour dti + (if tm_isdst dti >? 0 then 64 else 0);
        tm_mday dti; tm_mon dti + 16 * tm_wday dti;
        (tm_year dti - 1900) mod 256]
  /\ (108 <= tm_year dti <= 363 -> (tm_year dti - 1900) mod 256 = tm_year dti - 108)
  /\ mqtt w' = mqtt w ++ [pub "/message" (PText "date and time set!")]
  /\ Serial2_tx w' = Serial2_tx w.
Proof.
  intros (Hs & Hmi & Hh & Hd & Hmo & Hwd) w'. unfold w', km271SetDateTime.
  cbn [armCmd mqttPublish set_send_buf set_send_request send_buf send_request
       mqtt Serial2_tx].
  split; [reflexivity|]. split; [|split; [|split; reflexivity]].
  - unfold to_uint8. rewrite !(Z.mod_small (tm_sec dti)), !(Z.mod_small (tm_min dti)),
      !(Z.mod_small (tm_hour dti)), !(Z.mod_small (tm_mday dti)),
      !(Z.mod_small (tm_mon dti)) by lia.
    assert (H4 : Z.lor (tm_hour dti) (Z.land (Z.shiftl 1 6) 0x40) mod 256
                 = tm_hour dti + 64).
    { apply Z.eqb_eq.
      apply (checked_below
               (fun h => Z.lor h (Z.land (Z.shiftl 1 6) 0x40) mod 256 =? h + 64) 24);
        [vm_compute; reflexivity | lia]. }
    assert (H6 : Z.lor (tm_mon dti) (Z.land (Z.shiftl (tm_wday dti) 4) 0x70) mod 256
                 = tm_mon dti + 16 * tm_wday dti).
    { apply Z.eqb_eq.
      apply (checked_below
               (fun d => Z.lor (tm_mon dti) (Z.land (Z.shiftl d 4) 0x70) mod 256
                         =? tm_mon dti + 16 * d) 7); [|lia].
      apply (checked_below
               (fun m => forallb
                           (fun d => Z.lor m (Z.land (Z.shiftl d 4) 0x70) mod 256
                                     =? m + 16 * d)
                           (map Z.of_nat (seq 0 7))) 12);
        [vm_compute; reflexivity | lia]. }
    rewrite H6. destruct (tm_isdst dti >? 0); [rewrite H4 | rewrite Z.add_0_r];
      reflexivity.
  - intros Hy. symmetry. apply Z.mod_unique with (q := -7); lia.
Qed.

(** X14 witness: Friday 30 October 2026, 17:45:12. *)
Lemma X14_SetDateTime_packing_witness :
  send_buf (km271SetDateTime x14_time world_init)
  = [0x01; 0x00; 12; 45; 17; 30; 89; 18].
Proof.
  destruct (X14_SetDateTime_packing x14_time world_init
              ltac:(unfold tm_in_range; simpl; lia)) as (_ & H & _).
  rewrite H. reflexivity.
Defined.

(** ** Bitfields and numeric decoders *)

Lemma bitRead_0_or_1 v i : bitRead v i = 0 \/ bitRead v i = 1.
Proof.
  unfold bitRead. change 0x01 with (Z.ones 1).
  rewrite Z.land_ones by lia. change (2 ^ 1) with 2. change (Z.ones 1) with 1.
  pose proof (Z.mod_pos_bound (Z.shiftr v i) 2 ltac:(lia)). lia.
Qed.

Lemma bitRead_recompose v :
  0 <= v <= 255 ->
  lsb_first_value (map (bitRead v) [0; 1; 2; 3; 4; 5; 6; 7]) = v.
Proof.
  intros Hv. apply Z.eqb_eq.
  apply (checked_below
           (fun x => lsb_first_value (map (bitRead x) [0; 1; 2; 3; 4; 5; 6; 7]) =? x) 256);
    [vm_compute; reflexivity | lia].
Qed.

(** X15.  For the registers 0x8000, 0x8424, 0x8830 and 0xAA42 a block
    publishes exactly eight messages, each carrying 0 or 1, and these are
    the bits of the block's third byte, least significant first: read as a
    binary number they give the byte back. *)
Theorem X15_bitfield_publications
    (DEBUG_ON : bool) (data : list Z) (l : Z) (w : world) :
  In (block_register data) full_bitfield_registers ->
  0 <= rd data 2 <= 255 ->
  exists msgs bits,
    mqtt (parseInfo DEBUG_ON data l w) = mqtt w ++ msgs
    /\ length msgs = 8%nat
    /\ map payload_int msgs = map Some bits
    /\ Forall (fun b => b = 0 \/ b = 1) bits
    /\ lsb_first_value bits = rd data 2.
Proof.
  intros Hreg Hv.
  destruct (parseInfo_effect DEBUG_ON data l w) as [_ Hm]. cbv zeta in Hm.
  exists (snd (decodeBlock DEBUG_ON data (kmState w))),
         (map (bitRead (rd data 2)) [0; 1; 2; 3; 4; 5; 6; 7]).
  split; [exact Hm|].
  assert (Hbits : Forall (fun b => b = 0 \/ b = 1)
                    (map (bitRead (rd data 2)) [0; 1; 2; 3; 4; 5; 6; 7])).
  { apply List.Forall_forall. intros b Hb. apply in_map_iff in Hb.
    destruct Hb as (i & <- & _). apply bitRead_0_or_1. }
  unfold block_register, full_bitfield_registers in Hreg.
  destruct Hreg as [H | [H | [H | [H | []]]]]; symmetry in H;
    unfold decodeBlock; rewrite H; cbn [Z.eqb Pos.eqb snd];
    rewrite !set_u8_same;
    (split; [reflexivity|]); (split; [reflexivity|]);
    (split; [exact Hbits | apply bitRead_recompose; exact Hv]).
Qed.

(** X15 witness: the block [80 00 A5]. *)
Lemma X15_bitfield_publications_witness :
  exists msgs bits,
    mqtt (parseInfo false x15_block 3 world_init) = mqtt world_init ++ msgs
    /\ length msgs = 8%nat
    /\ map payload_int msgs = map Some bits
    /\ Forall (fun b => b = 0 \/ b = 1) bits
    /\ lsb_first_value bits = 0xA5.
Proof.
  apply (X15_bitfield_publications false x15_block 3 world_init).
  - left. reflexivity.
  - change (rd x15_block 2) with 0xA5. lia.
Defined.

(** X16.  The two temperature decoders lose nothing on bytes: different
    bytes decode to different temperatures.  [decode05cTemp] ranges over
    0 to 127.5 and [decodeNegTemp] over -127 to 128. *)
Theorem X16_decoders_injective (a b : Z) :
  0 <= a <= 255 -> 0 <= b <= 255 ->
  ((decode05cTemp a == decode05cTemp b)%Q -> a = b)
  /\ ((decodeNegTemp a == decodeNegTemp b)%Q -> a = b)
  /\ (0 <= decode05cTemp a <= 255 # 2)%Q
  /\ (-127 <= decodeNegTemp a <= 128)%Q.
Proof.
  intros Ha Hb. unfold decode05cTemp, decodeNegTemp, float_of_int.
  split; [|split; [|split]].
  - unfold Qeq. simpl. lia.
  - destruct (Z.gtb_spec a 128), (Z.gtb_spec b 128); unfold Qeq; simpl; lia.
  - unfold Qle. simpl. lia.
  - destruct (Z.gtb_spec a 128); unfold Qle; simpl; lia.
Qed.

(** X16 witness: the bytes 0x7F (127) and 0x81 (-127). *)
Lemma X16_decoders_injective_witness :
  ((decodeNegTemp 0x7F == decodeNegTemp 0x81)%Q -> 0x7F = 0x81)
  /\ (-127 <= decodeNegTemp 0x81 <= 128)%Q.
Proof.
  destruct (X16_decoders_injective 0x7F 0x81 ltac:(lia) ltac:(lia))
    as (_ & H2 & _ & _).
  destruct (X16_decoders_injective 0x81 0x81 ltac:(lia) ltac:(lia))
    as (_ & _ & _ & H4).
  split; [exact H2 | exact H4].
Defined.

(** X17.  A block whose register identifier is none of the [switch]'s
    case labels publishes nothing in a build without [DEBUG_ON] and exactly
    one message, the hex dump on [/undefinded_message], in a build with it;
    the keep-alive register 0x0400 publishes nothing in either build. *)
Theorem X17_unknown_register_publications
    (DEBUG_ON : bool) (data : list Z) (l : Z) (w : world) :
  (is_known_register (block_register data) = false ->
   mqtt (parseInfo DEBUG_ON data l w)
   = mqtt w ++ (if DEBUG_ON then [pub "/undefinded_message" (hexDump data)] else []))
  /\ (block_register data = 0x0400 -> mqtt (parseInfo DEBUG_ON data l w) = mqtt w).
Proof.
  destruct (parseInfo_effect DEBUG_ON data l w) as [_ Hm]. cbv zeta in Hm.
  rewrite Hm. unfold block_register, is_known_register, known_registers, decodeBlock.
  cbv zeta. set (reg := rd data 0 * 256 + rd data 1).
  split.
  - cbn [existsb]. intros H.
    repeat (apply orb_false_iff in H; destruct H as [Hk H]; rewrite Hk; clear Hk).
    reflexivity.
  - intros ->. cbn [Z.eqb Pos.eqb snd]. apply app_nil_r.
Qed.

(** X17 witness: the unknown register 0x1234 in a build without the dump. *)
Lemma X17_unknown_register_publications_witness :
  mqtt (parseInfo false x17_block 3 world_init) = [].
Proof.
  exact (proj1 (X17_unknown_register_publications false x17_block 3 world_init) eq_refl).
Defined.
